(** * Devsearch_v2: accounts (registration, OTP, login) and messaging views

    A shallow embedding of the request handlers of
    [apps/accounts/views.py], [apps/accounts/serializers.py] and
    [apps/messaging/views.py].  Tables of the relational store are lists of
    rows, a handler is a function from the store and the request to an
    outcome and the new store. *)

From Stdlib Require Import String Ascii ZArith Bool Arith Lia List.
Import ListNotations.
Open Scope string_scope.
Open Scope list_scope.
Set Warnings "-register-all".

(** ** Python strings *)

Module Py.

(** [str.isspace] on one character.  A character is its code point,
    restricted to 0..255: the white space there is TAB..CR (9..13),
    FS..US (28..31), SPACE (32), NEL (133) and NBSP (160). *)
Definition isspace (c : ascii) : bool :=
  let n := nat_of_ascii c in
  (((9 <=? n) && (n <=? 13)) || ((28 <=? n) && (n <=? 32))
   || (n =? 133) || (n =? 160))%nat.

Definition is_empty (s : string) : bool :=
  match s with EmptyString => true | String _ _ => false end.

(** [split_from cur s]: the words of [s], [cur] being the word read so
    far (empty between words). *)
Fixpoint split_from (cur s : string) : list string :=
  match s with
  | EmptyString => if is_empty cur then [] else [cur]
  | String c s' =>
      if isspace c
      then (if is_empty cur then split_from "" s'
            else cur :: split_from "" s')
      else split_from (String.append cur (String c "")) s'
  end.

(** [s.split()] with no argument: the maximal runs of characters that
    are not white space. *)
Definition split (s : string) : list string := split_from "" s.

Fixpoint lstrip (s : string) : string :=
  match s with
  | EmptyString => EmptyString
  | String c s' => if isspace c then lstrip s' else s
  end.

Fixpoint rstrip (s : string) : string :=
  match s with
  | EmptyString => EmptyString
  | String c s' =>
      let r := rstrip s' in
      if isspace c && is_empty r then EmptyString else String c r
  end.

(** [s.strip()] *)
Definition strip (s : string) : string := rstrip (lstrip s).

(** A character of [s] that is not white space. *)
Fixpoint has_word (s : string) : bool :=
  match s with
  | EmptyString => false
  | String c s' => negb (isspace c) || has_word s'
  end.

(** [c in s] *)
Fixpoint contains (c : ascii) (s : string) : bool :=
  match s with
  | EmptyString => false
  | String d s' => Ascii.eqb c d || contains c s'
  end.

End Py.

(** ** The ORM's queries on a table *)

Module ORM.

(** What [Model.objects.get(...)] does: the row, or one of its two
    exceptions. *)
Inductive GetResult (A : Type) : Type :=
| Found (row : A)
| DoesNotExist
| MultipleObjectsReturned.
Arguments Found {A} row.
Arguments DoesNotExist {A}.
Arguments MultipleObjectsReturned {A}.

(** [objects.get(cond)] *)
Definition get {A : Type} (cond : A -> bool) (table : list A) : GetResult A :=
  match filter cond table with
  | [] => DoesNotExist
  | [row] => Found row
  | _ :: _ :: _ => MultipleObjectsReturned
  end.

(** [objects.filter(cond).delete()] *)
Definition delete {A : Type} (cond : A -> bool) (table : list A) : list A :=
  filter (fun row => negb (cond row)) table.

(** [objects.filter(cond).count()] *)
Definition count {A : Type} (cond : A -> bool) (table : list A) : nat :=
  length (filter cond table).

(** [instance.save()] of a row that carries primary key [pk row]: the
    stored row with that key is overwritten, and the row is inserted
    when the table has none. *)
Definition save {A : Type} (same_pk : A -> A -> bool) (row : A)
    (table : list A) : list A :=
  if existsb (same_pk row) table
  then map (fun r => if same_pk row r then row else r) table
  else table ++ [row].

End ORM.

(** ** Responses and exceptions of the web framework *)

Inductive Json : Type :=
| JNull
| JBool (b : bool)
| JNum (n : Z)
| JStr (s : string)
| JList (items : list Json)
| JObj (fields : list (string * Json)).

Record Response : Type := mkResponse {
  status : nat;
  data : list (string * Json)
}.

(** The exceptions a handler lets escape; the framework turns each into
    the response whose status [status_of] gives. *)
Inductive Exn : Type :=
| ValidationError (detail : Json)
| Http404 (msg : string)
| NotAuthenticated
| PermissionDenied
| ObjectDoesNotExist
| MultipleObjectsReturned.

Definition status_of (e : Exn) : nat :=
  match e with
  | ValidationError _ => 400
  | Http404 _ => 404
  | NotAuthenticated => 401
  | PermissionDenied => 403
  | ObjectDoesNotExist => 500
  | MultipleObjectsReturned => 500
  end.

(** A computation that returns or raises. *)
Inductive Result (A : Type) : Type :=
| Ok (a : A)
| Raise (e : Exn).
Arguments Ok {A} a.
Arguments Raise {A} e.

(** [d.get(key)] on a response body or an error detail *)
Fixpoint lookup (key : string) (fields : list (string * Json)) : option Json :=
  match fields with
  | [] => None
  | (k, v) :: rest => if String.eqb key k then Some v else lookup key rest
  end.

(** What the serializer makes of the detail of a [ValidationError] that
    its [validate] raised ([as_serializer_error]): in a dict every value
    that is not a list or dict becomes a one-element list, anything else
    goes under [non_field_errors]. *)
Definition as_serializer_error (detail : Json) : Json :=
  match detail with
  | JObj fields =>
      JObj (map (fun kv =>
                   (fst kv,
                    match snd kv with
                    | JList _ | JObj _ => snd kv
                    | v => JList [v]
                    end)) fields)
  | JList items => JObj [("non_field_errors", JList items)]
  | v => JObj [("non_field_errors", JList [v])]
  end.

(** ** The relational store *)

Record User : Type := mkUser {
  user_id : nat;
  email : string;
  first_name : string;
  last_name : string;
  password : string;
  is_email_verified : bool
}.

Record Otp : Type := mkOtp {
  otp_user : nat;
  otp : Z;
  created_at : Z
}.

Record Profile : Type := mkProfile {
  profile_id : string;
  profile_user : nat
}.

Record Message : Type := mkMessage {
  msg_id : string;
  sender : option string;
  recipient : string;
  subject : string;
  body : string;
  is_read : bool;
  created : Z
}.

(** A mail handed to the delivery service: its kind and the user. *)
Record Mail : Type := mkMail {
  mail_kind : string;
  mail_to : nat
}.

(** The tables the views read and write.  The views only read the
    profiles ([request.user.profile], [Profile.objects.get]); the code
    that creates them is outside these view and serializer modules, so
    nothing below speaks of how that table grows. *)
Record DB : Type := mkDB {
  users : list User;
  otps : list Otp;
  profiles : list Profile;
  messages : list Message;
  outbox : list Mail
}.

Definition empty_db : DB := mkDB [] [] [] [] [].

Definition set_users (us : list User) (db : DB) : DB :=
  mkDB us (otps db) (profiles db) (messages db) (outbox db).
Definition set_otps (os : list Otp) (db : DB) : DB :=
  mkDB (users db) os (profiles db) (messages db) (outbox db).
Definition set_messages (ms : list Message) (db : DB) : DB :=
  mkDB (users db) (otps db) (profiles db) ms (outbox db).
Definition send_mail (m : Mail) (db : DB) : DB :=
  mkDB (users db) (otps db) (profiles db) (messages db) (outbox db ++ [m]).

(** What a request reads from outside the store: the clock, the code the
    random generator gives, the key a new row gets. *)
Record Env : Type := mkEnv {
  now : Z;
  random_otp : Z;
  new_uuid : string
}.

(** ** Handlers: the store is threaded, an exception keeps what was
    written before it *)

Definition M (A : Type) : Type := DB -> Result A * DB.

Definition ret {A : Type} (a : A) : M A := fun db => (Ok a, db).
Definition raise {A : Type} (e : Exn) : M A := fun db => (Raise e, db).
Definition bind {A B : Type} (m : M A) (k : A -> M B) : M B :=
  fun db =>
    match m db with
    | (Ok a, db') => k a db'
    | (Raise e, db') => (Raise e, db')
    end.
Definition read {A : Type} (f : DB -> A) : M A := fun db => (Ok (f db), db).
Definition write (f : DB -> DB) : M unit := fun db => (Ok tt, f db).

Notation "x <- m ;; k" := (bind m (fun x => k))
  (at level 61, m at next level, right associativity).
Notation "m ;;; k" := (bind m (fun _ => k))
  (at level 61, right associativity).

(** What [User.objects.get(email=e)] finds. *)
Definition User_by_email (e : string) (db : DB) : ORM.GetResult User :=
  ORM.get (fun u => String.eqb (email u) e) (users db).

(** [Otp.objects.filter(user=user).delete()] *)
Definition delete_otps (u : User) : M unit :=
  write (fun db =>
    set_otps (ORM.delete (fun o => Nat.eqb (otp_user o) (user_id u)) (otps db)) db).

(** [Otp.objects.get(user=user, otp=code)] *)
Definition Otp_get (user : User) (code : Z) (db : DB) : ORM.GetResult Otp :=
  ORM.get (fun o => Nat.eqb (otp_user o) (user_id user) && Z.eqb (otp o) code)
          (otps db).

(** The Otp rows of a user. *)
Definition otps_of (uid : nat) (db : DB) : list Otp :=
  filter (fun o => Nat.eqb (otp_user o) uid) (otps db).

(** [User.objects.get(email=e)] outside a [try]: the exception escapes. *)
Definition User_get (e : string) : M User :=
  fun db =>
    match User_by_email e db with
    | ORM.Found user => (Ok user, db)
    | ORM.DoesNotExist => (Raise ObjectDoesNotExist, db)
    | ORM.MultipleObjectsReturned => (Raise MultipleObjectsReturned, db)
    end.

(** [user.save()] *)
Definition User_save (u : User) : M unit :=
  write (fun db =>
    set_users (ORM.save (fun a b => Nat.eqb (user_id a) (user_id b)) u (users db)) db).

(** [serializer.is_valid(raise_exception=True)] around the serializer's
    own [validate]: a [ValidationError] is raised again with the detail
    [as_serializer_error] gives, any other exception escapes as it is. *)
Definition run_validate {A : Type} (r : Result A) : Result A :=
  match r with
  | Raise (ValidationError d) => Raise (ValidationError (as_serializer_error d))
  | other => other
  end.

(** The same around a field's [validate_<field>]: the detail goes under
    the field's name. *)
Definition run_validate_field {A : Type} (field : string) (r : Result A)
    : Result A :=
  match r with
  | Raise (ValidationError d) => Raise (ValidationError (JObj [(field, d)]))
  | other => other
  end.

(** A serializer check that reads the store and writes nothing. *)
Definition check {A : Type} (f : DB -> Result A) : M A :=
  fun db => (f db, db).

(** [CharField.to_internal_value] with the framework's default
    [trim_whitespace=True], which no field of these serializers turns
    off.  (Format, length and blank checks of the fields are not part of
    the model.) *)
Definition CharField (value : string) : string := Py.strip value.

(** ** apps/accounts *)

Module Accounts.

Record RegisterData : Type := mkRegisterData {
  reg_email : string;
  reg_first_name : string;
  reg_last_name : string;
  reg_password : string
}.

Record LoginData : Type := mkLoginData {
  login_email : option string;
  login_password : option string
}.

Record VerifyOtpData : Type := mkVerifyOtpData {
  vo_email : string;
  vo_otp : Z
}.

Record ResetPasswordData : Type := mkResetPasswordData {
  rp_email : string;
  rp_otp : Z;
  rp_new_password : string
}.

(** What [LoginView.post] ends in: a response of its own, or the call of
    [super().post], the token pair view of the JWT library. *)
Inductive LoginReply : Type :=
| Reply (r : Response)
| Super_post (data : LoginData).

Section Views.

(** [django.contrib.auth.hashers.make_password] *)
Variable make_password : string -> string.

(** The property [Otp.is_valid] of [apps/accounts/models.py], read at
    a given time: the code's validity window has not elapsed. *)
Variable is_valid : Otp -> Z -> bool.

(** [Field.run_validators] of an [EmailField]: the messages of those of
    the field's validators that refuse the value, in the order of
    [self.validators]: [ProhibitNullCharactersValidator],
    [ProhibitSurrogateCharactersValidator] and Django's [EmailValidator]
    ("Enter a valid email address."); none if the value is an email
    address. *)
Variable run_validators : string -> list string.

(** *** serializers.py *)

Definition No_spacing (field : string) : Exn :=
  ValidationError (JObj [(field, JStr "No spacing allowed")]).

(** [RegisterSerializer.validate] *)
Definition RegisterSerializer_validate (attrs : RegisterData)
    : Result RegisterData :=
  if (1 <? length (Py.split (reg_first_name attrs)))%nat
  then Raise (No_spacing "first_name")
  else if (1 <? length (Py.split (reg_last_name attrs)))%nat
  then Raise (No_spacing "last_name")
  else Ok attrs.

(** Modelled from the spec: the field stage of [RegisterSerializer], a
    ModelSerializer over the [User] model, which is not in the source:
    the character fields are trimmed and the email is unique. *)
Definition RegisterSerializer_to_internal_value (data : RegisterData)
    (db : DB) : Result RegisterData :=
  let attrs :=
    mkRegisterData (CharField (reg_email data))
                   (CharField (reg_first_name data))
                   (CharField (reg_last_name data))
                   (CharField (reg_password data)) in
  if existsb (fun u => String.eqb (email u) (reg_email attrs)) (users db)
  then Raise (ValidationError
                (JObj [("email",
                        JList [JStr "user with this email already exists."])]))
  else Ok attrs.

Definition RegisterSerializer_is_valid (data : RegisterData)
    : M RegisterData :=
  attrs <- check (RegisterSerializer_to_internal_value data) ;;
  check (fun _ => run_validate (RegisterSerializer_validate attrs)).

Definition fresh_user_id (db : DB) : nat :=
  S (fold_right Nat.max 0%nat (map user_id (users db))).

(** Modelled from the spec: [User.objects.create_user] of the custom
    manager, which is not in the source: a new, unverified user with
    the password hashed. *)
Definition create_user (attrs : RegisterData) : M User :=
  fun db =>
    let user := mkUser (fresh_user_id db) (reg_email attrs)
                  (reg_first_name attrs) (reg_last_name attrs)
                  (make_password (reg_password attrs)) false in
    (Ok user, set_users (users db ++ [user]) db).

(** [RegisterSerializer.create] *)
Definition RegisterSerializer_create (validated_data : RegisterData)
    : M User :=
  create_user validated_data.

(** [SendOtpSerializer.validate_email] *)
Definition SendOtpSerializer_validate_email (value : string) (db : DB)
    : Result string :=
  match User_by_email value db with
  | ORM.Found _ => Ok value
  | ORM.DoesNotExist =>
      Raise (ValidationError
               (JObj [("error", JStr "User with this email does not exist.")]))
  | ORM.MultipleObjectsReturned => Raise MultipleObjectsReturned
  end.

(** [email = serializers.EmailField()]: the field's own checks
    ([CharField.run_validation]), which run before [validate_email]: a
    value that is blank once trimmed is refused, then the value is
    trimmed and handed to the validators, whose messages, if any, are
    raised together. *)
Definition EmailField (data : string) : Result string :=
  if Py.is_empty (CharField data)
  then Raise (ValidationError (JList [JStr "This field may not be blank."]))
  else match run_validators (CharField data) with
       | [] => Ok (CharField data)
       | errors => Raise (ValidationError (JList (map JStr errors)))
       end.

Definition SendOtpSerializer_is_valid (data_email : string) : M string :=
  check (fun db =>
    run_validate_field "email"
      (match EmailField data_email with
       | Ok value => SendOtpSerializer_validate_email value db
       | Raise e => Raise e
       end)).

(** [VerifyOtpSerializer.validate] *)
Definition VerifyOtpSerializer_validate (env : Env) (attrs : VerifyOtpData)
    (db : DB) : Result VerifyOtpData :=
  match User_by_email (vo_email attrs) db with
  | ORM.DoesNotExist =>
      Raise (ValidationError
               (JObj [("error", JStr "User with this email does not exist.")]))
  | ORM.MultipleObjectsReturned => Raise MultipleObjectsReturned
  | ORM.Found user =>
      match Otp_get user (vo_otp attrs) db with
      | ORM.DoesNotExist =>
          Raise (ValidationError
                   (JObj [("error", JStr "Invalid OTP provided.")]))
      | ORM.MultipleObjectsReturned => Raise MultipleObjectsReturned
      | ORM.Found otp_record =>
          if negb (is_valid otp_record (now env))
          then Raise (ValidationError
                        (JObj [("error", JStr "OTP has expired.");
                               ("next_action", JStr "request_new_otp");
                               ("request_url", JStr "/api/v1/auth/send-otp/")]))
          else Ok attrs
      end
  end.

Definition VerifyOtpSerializer_is_valid (env : Env) (data : VerifyOtpData)
    : M VerifyOtpData :=
  check (fun db =>
    run_validate
      (VerifyOtpSerializer_validate env
         (mkVerifyOtpData (CharField (vo_email data)) (vo_otp data)) db)).

(** Modelled from the spec: [RequestPasswordResetOtpSerializer], which
    is not in the source: it fails if the user is unknown. *)
Definition RequestPasswordResetOtpSerializer_is_valid (data_email : string)
    : M string :=
  check (fun db =>
    run_validate_field "email"
      (SendOtpSerializer_validate_email (CharField data_email) db)).

(** Modelled from the spec: [ResetPasswordWithOtpSerializer], which is
    not in the source: it validates the OTP as [VerifyOtpSerializer]
    does, and its [save] sets the new password. *)
Definition ResetPasswordWithOtpSerializer_is_valid (env : Env)
    (data : ResetPasswordData) : M ResetPasswordData :=
  attrs <- VerifyOtpSerializer_is_valid env
             (mkVerifyOtpData (rp_email data) (rp_otp data)) ;;
  ret (mkResetPasswordData (vo_email attrs) (vo_otp attrs)
         (CharField (rp_new_password data))).

Definition set_password (raw : string) (u : User) : User :=
  mkUser (user_id u) (email u) (first_name u) (last_name u)
         (make_password raw) (is_email_verified u).

Definition ResetPasswordWithOtpSerializer_save (attrs : ResetPasswordData)
    : M unit :=
  user <- User_get (rp_email attrs) ;;
  User_save (set_password (rp_new_password attrs) user).

(** *** emails.py *)

(** Modelled from the spec: [SendEmail.send_otp], which is not in the
    source: it creates a new code for the user and mails it. *)
Definition SendEmail_send_otp (env : Env) (user : User) : M unit :=
  write (fun db =>
    send_mail (mkMail "otp" (user_id user))
      (set_otps (otps db ++ [mkOtp (user_id user) (random_otp env) (now env)])
                db)).

(** Modelled from the spec: [SendEmail.send_password_reset_otp], which
    is not in the source: it issues a new code and mails it. *)
Definition SendEmail_send_password_reset_otp (env : Env) (user : User)
    : M unit :=
  write (fun db =>
    send_mail (mkMail "password_reset_otp" (user_id user))
      (set_otps (otps db ++ [mkOtp (user_id user) (random_otp env) (now env)])
                db)).

Definition SendEmail_welcome (user : User) : M unit :=
  write (send_mail (mkMail "welcome" (user_id user))).

Definition SendEmail_password_reset_success (user : User) : M unit :=
  write (send_mail (mkMail "password_reset_success" (user_id user))).

(** *** views.py *)

(** [RegisterView.post] *)
Definition RegisterView_post (env : Env) (data : RegisterData) : M Response :=
  attrs <- RegisterSerializer_is_valid data ;;
  user <- RegisterSerializer_create attrs ;;
  SendEmail_send_otp env user ;;;
  ret (mkResponse 201
         [("message", JStr "OTP sent for email verification.");
          ("email", JStr (reg_email attrs))]).

(** [LoginView.post] *)
Definition LoginView_post (data : LoginData) : M LoginReply :=
  fun db =>
    match match login_email data with
          | Some e => User_by_email e db
          | None => ORM.DoesNotExist
          end with
    | ORM.Found user =>
        if negb (is_email_verified user)
        then (Ok (Reply (mkResponse 401
                [("message",
                  JStr "Email not verified. Please verify your email before logging in.");
                 ("next_action", JStr "send_otp");
                 ("email", JStr (email user))])), db)
        else (Ok (Super_post data), db)
    | ORM.DoesNotExist =>
        (Ok (Reply (mkResponse 404 [("error", JStr "User does not exist.")])),
         db)
    | ORM.MultipleObjectsReturned => (Raise MultipleObjectsReturned, db)
    end.

Definition No_account : Response :=
  mkResponse 404 [("error", JStr "No account is associated with this email.")].

(** [SendOtpView.post] *)
Definition SendOtpView_post (env : Env) (data_email : string) : M Response :=
  email <- SendOtpSerializer_is_valid data_email ;;
  fun db =>
    match User_by_email email db with
    | ORM.DoesNotExist => (Ok No_account, db)
    | ORM.MultipleObjectsReturned => (Raise MultipleObjectsReturned, db)
    | ORM.Found user =>
        (delete_otps user ;;;
         SendEmail_send_otp env user ;;;
         ret (mkResponse 200 [("message", JStr "OTP sent successfully.")])) db
    end.

Definition verified (u : User) : User :=
  mkUser (user_id u) (email u) (first_name u) (last_name u) (password u) true.

(** [VerifyOtpView.post] *)
Definition VerifyOtpView_post (env : Env) (data : VerifyOtpData) : M Response :=
  attrs <- VerifyOtpSerializer_is_valid env data ;;
  user <- User_get (vo_email attrs) ;;
  if is_email_verified user
  then
    delete_otps user ;;;
    ret (mkResponse 200 [("error", JStr "Email address already verified!")])
  else
    User_save (verified user) ;;;
    delete_otps user ;;;
    SendEmail_welcome user ;;;
    ret (mkResponse 200 [("message", JStr "Email verified successfully.")]).

(** Modelled from the spec: the permission [IsUnauthenticated], which
    is not in the source: the call must come without a logged-in user. *)
Definition IsUnauthenticated (request_user : option nat) : M unit :=
  match request_user with
  | None => ret tt
  | Some _ => raise PermissionDenied
  end.

(** [PasswordResetRequestView.post] *)
Definition PasswordResetRequestView_post (env : Env)
    (request_user : option nat) (data_email : string) : M Response :=
  IsUnauthenticated request_user ;;;
  email <- RequestPasswordResetOtpSerializer_is_valid data_email ;;
  user <- User_get email ;;
  delete_otps user ;;;
  SendEmail_send_password_reset_otp env user ;;;
  ret (mkResponse 200 [("message", JStr "OTP sent successfully.")]).

(** [PasswordResetConfirmView.post] *)
Definition PasswordResetConfirmView_post (env : Env)
    (request_user : option nat) (data : ResetPasswordData) : M Response :=
  IsUnauthenticated request_user ;;;
  attrs <- ResetPasswordWithOtpSerializer_is_valid env data ;;
  ResetPasswordWithOtpSerializer_save attrs ;;;
  user <- User_get (rp_email attrs) ;;
  delete_otps user ;;;
  SendEmail_password_reset_success user ;;;
  ret (mkResponse 200
         [("message", JStr "Your password has been reset, proceed to login.")]).

(** *** The requests of urls.py that read or write users and codes *)

Inductive Request : Type :=
| Register (data : RegisterData)
| Login (data : LoginData)
| SendOtp (data_email : string)
| VerifyOtp (data : VerifyOtpData)
| PasswordResetRequest (request_user : option nat) (data_email : string)
| PasswordResetConfirm (request_user : option nat) (data : ResetPasswordData).

(** The store after one request (its reply dropped). *)
Definition handle (env : Env) (req : Request) (db : DB) : DB :=
  match req with
  | Register data => snd (RegisterView_post env data db)
  | Login data => snd (LoginView_post data db)
  | SendOtp e => snd (SendOtpView_post env e db)
  | VerifyOtp data => snd (VerifyOtpView_post env data db)
  | PasswordResetRequest u e => snd (PasswordResetRequestView_post env u e db)
  | PasswordResetConfirm u data =>
      snd (PasswordResetConfirmView_post env u data db)
  end.

End Views.

End Accounts.

(** ** apps/messaging *)

Module Messaging.

(** The body of a message request; the view adds [recipient]. *)
Record MessageData : Type := mkMessageData {
  md_subject : string;
  md_body : string;
  md_recipient : option string
}.

(** What the paginator returns for a page. *)
Record Page : Type := mkPage {
  items : list Message;
  next : option nat;
  previous : option nat;
  per_page : nat;
  current_page : nat;
  last_page : nat
}.

(** The body of [InboxView.get]'s response, key by key. *)
Record InboxBody : Type := mkInboxBody {
  ib_count : nat;
  ib_next : option nat;
  ib_previous : option nat;
  ib_results : list Message;
  ib_unread_count : nat;
  ib_per_page : nat;
  ib_current_page : nat;
  ib_last_page : nat
}.

(** The data [InboxGenericView.list] answers with, and the page it was
    given to [get_paginated_response] with, if any. *)
Record ListBody : Type := mkListBody {
  lb_results : list Message;
  lb_unread_count : nat;
  lb_page : option Page
}.

(** [permission_classes = (IsAuthenticated,)]: the logged-in user. *)
Definition IsAuthenticated (request_user : option nat) : M nat :=
  match request_user with
  | Some uid => ret uid
  | None => raise NotAuthenticated
  end.

(** [request.user.profile], the one-to-one relation read backwards. *)
Definition user_profile (uid : nat) : M Profile :=
  fun db =>
    match ORM.get (fun p => Nat.eqb (profile_user p) uid) (profiles db) with
    | ORM.Found p => (Ok p, db)
    | ORM.DoesNotExist => (Raise ObjectDoesNotExist, db)
    | ORM.MultipleObjectsReturned => (Raise MultipleObjectsReturned, db)
    end.

(** Modelled from the spec: the default ordering of [Message], whose
    model is not in the source: newest first. *)
Fixpoint insert_newest (m : Message) (l : list Message) : list Message :=
  match l with
  | [] => [m]
  | x :: rest =>
      if (created x <? created m)%Z then m :: l else x :: insert_newest m rest
  end.

Definition newest_first (l : list Message) : list Message :=
  fold_right insert_newest [] l.

(** [Message.objects.filter(recipient=profile)]; the same rows are
    [profile.messages], the relation read backwards. *)
Definition inbox (profile : Profile) (db : DB) : list Message :=
  newest_first
    (filter (fun m => String.eqb (recipient m) (profile_id profile))
            (messages db)).

(** [queryset.filter(is_read=False).count()] *)
Definition unread (qs : list Message) : nat :=
  ORM.count (fun m => negb (is_read m)) qs.

Definition ceil_div (n d : nat) : nat := ((n + d - 1) / d)%nat.

(** Modelled from the spec: [CustomPagination.paginate_queryset] of
    [apps/common/pagination.py], which is not in the source: the page
    [page_number] (from 1) of [page_size] rows each, with the numbers the
    views read from it; a page that does not exist is a 404. *)
Definition paginate_queryset (page_size : nat) (queryset : list Message)
    (page_number : nat) : Result Page :=
  let last := Nat.max 1 (ceil_div (length queryset) page_size) in
  if ((1 <=? page_number) && (page_number <=? last))%nat
  then Ok (mkPage
             (firstn page_size (skipn ((page_number - 1) * page_size) queryset))
             (if (page_number <? last)%nat then Some (S page_number) else None)
             (if (1 <? page_number)%nat then Some (page_number - 1)%nat else None)
             page_size page_number last)
  else Raise (Http404 "Invalid page.").

(** Two rows with the same primary key. *)
Definition same_msg (a b : Message) : bool := String.eqb (msg_id a) (msg_id b).

(** [message.save()] *)
Definition Message_save (m : Message) : M unit :=
  write (fun db => set_messages (ORM.save same_msg m (messages db)) db).

Definition mark_read (m : Message) : Message :=
  mkMessage (msg_id m) (sender m) (recipient m) (subject m) (body m) true
            (created m).

Definition opt_str (o : option string) : Json :=
  match o with Some s => JStr s | None => JNull end.

(** Modelled from the spec: [MessageSerializer.data], whose serializer is
    not in the source: the fields of the message. *)
Definition MessageSerializer_data (m : Message) : list (string * Json) :=
  [("id", JStr (msg_id m)); ("sender", opt_str (sender m));
   ("recipient", JStr (recipient m)); ("subject", JStr (subject m));
   ("body", JStr (body m)); ("is_read", JBool (is_read m));
   ("created", JNum (created m))].

Section Views.

(** [apps.accounts.validators.validate_uuid] *)
Variable validate_uuid : string -> bool.

(** The key the ORM looks up for the id of the URL: the string read as a
    UUID ([uuid.UUID]), in the spelling of the stored keys, so that every
    spelling of a UUID finds the same row.  The views come to it only
    with a string that [validate_uuid] has accepted. *)
Variable to_uuid : string -> string.

(** The field checks of [MessageSerializer]: the errors by field, or
    the validated data. *)
Variable MessageSerializer_run :
  DB -> MessageData -> list (string * Json) + MessageData.

(** The database's [icontains]: [icontains text term]. *)
Variable icontains : string -> string -> bool.

(** The [page_size] of [CustomPagination], if it sets one. *)
Variable CustomPagination_page_size : option nat.

(** [InboxView.get]; [page_number] is the request's [page].  The
    serializer is built from [messages], the whole queryset; of the
    paginator's answer only the numbers are read. *)
Definition InboxView_get (request_user : option nat) (page_number : nat)
    : M InboxBody :=
  uid <- IsAuthenticated request_user ;;
  profile <- user_profile uid ;;
  messages <- read (inbox profile) ;;
  paginated_projects <- check (fun _ => paginate_queryset 10 messages page_number) ;;
  let serializer_data := messages in
  let unread_count := unread messages in
  ret (mkInboxBody (length messages) (next paginated_projects)
         (previous paginated_projects) serializer_data unread_count
         (per_page paginated_projects) (current_page paginated_projects)
         (last_page paginated_projects)).

(** [InboxGenericView.get_queryset] *)
Definition get_queryset (profile : Profile) (db : DB) : list Message :=
  inbox profile db.

(** [filter_queryset] with [SearchFilter] over [subject] and [body]:
    every term of the search is in one of the two. *)
Definition filter_queryset (search : list string) (queryset : list Message)
    : list Message :=
  filter (fun m =>
            forallb (fun term => icontains (subject m) term
                                 || icontains (body m) term) search)
         queryset.

(** [InboxGenericView.list] *)
Definition InboxGenericView_list (request_user : option nat)
    (search : list string) (page_number : nat) : M ListBody :=
  uid <- IsAuthenticated request_user ;;
  profile <- user_profile uid ;;
  queryset <- read (fun db => filter_queryset search (get_queryset profile db)) ;;
  page <- match CustomPagination_page_size with
          | Some size =>
              p <- check (fun _ => paginate_queryset size queryset page_number) ;;
              ret (Some p)
          | None => ret None
          end ;;
  unread_count <- read (fun db => unread (get_queryset profile db)) ;;
  match page with
  | Some p => ret (mkListBody (items p) unread_count (Some p))
  | None => ret (mkListBody queryset unread_count None)
  end.

(** [ViewMessage.get].  [serializer.data] is read when the response is
    built, after the flag was set on the same object, so the body shows
    the message as read. *)
Definition ViewMessage_get (request_user : option nat) (id : string)
    : M Response :=
  uid <- IsAuthenticated request_user ;;
  if negb (validate_uuid id) then raise (Http404 "Invalid message ID")
  else
    profile <- user_profile uid ;;
    found <- read (fun db =>
               ORM.get (fun m => String.eqb (msg_id m) (to_uuid id))
                       (inbox profile db)) ;;
    match found with
    | ORM.DoesNotExist =>
        ret (mkResponse 404 [("error", JStr "Message not found.")])
    | ORM.MultipleObjectsReturned => raise MultipleObjectsReturned
    | ORM.Found message =>
        if negb (is_read message)
        then
          Message_save (mark_read message) ;;;
          ret (mkResponse 200 (MessageSerializer_data (mark_read message)))
        else ret (mkResponse 200 (MessageSerializer_data message))
    end.

Definition Cannot_message_yourself : Exn :=
  ValidationError (JList [JStr "You cannot message yourself."]).

(** Modelled from the spec: [serializer.save(sender=sender)] of the
    ModelSerializer over [Message], whose model is not in the source:
    a new, unread message. *)
Definition MessageSerializer_save (env : Env) (validated : MessageData)
    (recipient_id : string) (sender : option string) : M Message :=
  fun db =>
    let m := mkMessage (new_uuid env) sender recipient_id
               (md_subject validated) (md_body validated) false (now env) in
    (Ok m, set_messages (messages db ++ [m]) db).

(** [CreateMessage.post] *)
Definition CreateMessage_post (env : Env) (request_user : option nat)
    (request_data : MessageData) (profile_id_arg : string) : M Response :=
  if negb (validate_uuid profile_id_arg) then raise (Http404 "Invalid profile id")
  else
    found <- read (fun db =>
               ORM.get (fun p => String.eqb (profile_id p)
                                              (to_uuid profile_id_arg))
                       (profiles db)) ;;
    match found with
    | ORM.DoesNotExist => raise (Http404 "Profile not found.")
    | ORM.MultipleObjectsReturned => raise MultipleObjectsReturned
    | ORM.Found recipient =>
        sender <- match request_user with
                  | Some uid => p <- user_profile uid ;; ret (Some p)
                  | None => ret None
                  end ;;
        if match sender with
           | Some s => String.eqb (profile_id s) (profile_id recipient)
           | None => false
           end
        then raise Cannot_message_yourself
        else
          let data := mkMessageData (md_subject request_data)
                        (md_body request_data)
                        (Some (profile_id recipient)) in
          run <- read (fun db => MessageSerializer_run db data) ;;
          match run with
          | inl errors => raise (ValidationError (JObj errors))
          | inr validated =>
              m <- MessageSerializer_save env validated (profile_id recipient)
                     (option_map profile_id sender) ;;
              ret (mkResponse 201 (MessageSerializer_data m))
          end
    end.

(** [DeleteMessage.delete] *)
Definition DeleteMessage_delete (request_user : option nat)
    (message_id : string) : M Response :=
  uid <- IsAuthenticated request_user ;;
  if negb (validate_uuid message_id) then raise (Http404 "Invalid message id")
  else
    profile <- user_profile uid ;;
    found <- read (fun db =>
               ORM.get (fun m => String.eqb (msg_id m) (to_uuid message_id)
                                 && String.eqb (recipient m) (profile_id profile))
                       (messages db)) ;;
    match found with
    | ORM.DoesNotExist => raise (Http404 "Message not found.")
    | ORM.MultipleObjectsReturned => raise MultipleObjectsReturned
    | ORM.Found message =>
        write (fun db =>
          set_messages
            (ORM.delete (fun m => String.eqb (msg_id m) (msg_id message))
                        (messages db)) db) ;;;
        ret (mkResponse 204 [("message", JStr "Message deleted successfully.")])
    end.

End Views.

End Messaging.

(** ** Every request *)

Section System.

Variable make_password : string -> string.
Variable is_valid : Otp -> Z -> bool.
Variable run_validators : string -> list string.
Variable validate_uuid : string -> bool.
Variable to_uuid : string -> string.
Variable MessageSerializer_run :
  DB -> Messaging.MessageData -> list (string * Json) + Messaging.MessageData.
Variable icontains : string -> string -> bool.
Variable CustomPagination_page_size : option nat.

(** A request to one of the handlers above. *)
Inductive Operation : Type :=
| AccountsRequest (req : Accounts.Request)
| Inbox (request_user : option nat) (page_number : nat)
| InboxSearch (request_user : option nat) (search : list string)
    (page_number : nat)
| ViewMessage (request_user : option nat) (id : string)
| CreateMessage (request_user : option nat)
    (request_data : Messaging.MessageData) (profile_id_arg : string)
| DeleteMessage (request_user : option nat) (message_id : string).

(** The store after one request (its reply dropped). *)
Definition serve (env : Env) (op : Operation) (db : DB) : DB :=
  match op with
  | AccountsRequest req =>
      Accounts.handle make_password is_valid run_validators env req db
  | Inbox u page => snd (Messaging.InboxView_get u page db)
  | InboxSearch u search page =>
      snd (Messaging.InboxGenericView_list icontains CustomPagination_page_size
             u search page db)
  | ViewMessage u id =>
      snd (Messaging.ViewMessage_get validate_uuid to_uuid u id db)
  | CreateMessage u d pid =>
      snd (Messaging.CreateMessage_post validate_uuid to_uuid
             MessageSerializer_run env u d pid db)
  | DeleteMessage u id =>
      snd (Messaging.DeleteMessage_delete validate_uuid to_uuid u id db)
  end.

(** The store after a sequence of requests, each with what it reads
    from outside. *)
Definition run (ops : list (Env * Operation)) (db : DB) : DB :=
  fold_left (fun d eo => serve (fst eo) (snd eo) d) ops db.

End System.

(** ** What the properties speak of *)

(** No user has two codes. *)
Definition at_most_one_otp (db : DB) : Prop :=
  forall uid : nat, (length (otps_of uid db) <= 1)%nat.

(** Every code belongs to a user of the store. *)
Definition otps_owned (db : DB) : Prop :=
  forall o : Otp, In o (otps db) -> In (otp_user o) (map user_id (users db)).

(** The store invariant of the accounts handlers. *)
Definition otp_invariant (db : DB) : Prop :=
  at_most_one_otp db /\ otps_owned db.

(** A handler started in a store where [P] holds ends, when it returns
    [a], in one where [Q a] holds and, when it raises, in one where [E]
    holds. *)
Definition hoare {A : Type} (P : DB -> Prop) (m : M A)
    (Q : A -> DB -> Prop) (E : DB -> Prop) : Prop :=
  forall db : DB,
    P db ->
    match m db with
    | (Ok a, db') => Q a db'
    | (Raise _, db') => E db'
    end.

(** The user is a row of the store. *)
Definition known (u : User) (db : DB) : Prop :=
  In (user_id u) (map user_id (users db)).

(** The store after [ViewMessage.get]. *)
Definition viewed (validate_uuid : string -> bool) (to_uuid : string -> string)
    (request_user : option nat) (id : string) (db : DB) : DB :=
  snd (Messaging.ViewMessage_get validate_uuid to_uuid request_user id db).

(** Every stored message with this key has been read. *)
Definition all_read (id : string) (db : DB) : Prop :=
  forall m : Message, In m (messages db) -> msg_id m = id -> is_read m = true.

(** What [SendOtpSerializer] raises for an email that no user has. *)
Definition Unknown_email : Exn :=
  ValidationError
    (JObj [("email",
            JObj [("error", JStr "User with this email does not exist.")])]).

(** [any(c.isspace() for c in s)] *)
Fixpoint has_whitespace (s : string) : bool :=
  match s with
  | EmptyString => false
  | String c s' => Py.isspace c || has_whitespace s'
  end.

(** What [VerifyOtpView.post] raises for a code that is not the user's. *)
Definition Invalid_otp : Exn :=
  ValidationError (JObj [("error", JList [JStr "Invalid OTP provided."])]).

(** A handler that, when it raises, leaves the store as it found it. *)
Definition fails_cleanly {A : Type} (m : M A) : Prop :=
  forall db : DB,
    hoare (fun d => d = db) m (fun _ _ => True) (fun d => d = db).

(** What [ViewMessage.get] answers when the inbox has no such message. *)
Definition Message_not_found : Response :=
  mkResponse 404 [("error", JStr "Message not found.")].

(** [make_password] of the examples: the hash is not the password. *)
Definition example_hash (raw : string) : string := String.append "pbkdf2$" raw.

(** [Otp.is_valid] of the examples: a window of 300 seconds. *)
Definition example_is_valid (o : Otp) (t : Z) : bool := (t <? created_at o + 300)%Z.

(** ** Example data *)

Import Accounts.

Definition env0 : Env := mkEnv 1000 123456 "00000000-0000-4000-8000-000000000001".

Definition jane : RegisterData := mkRegisterData "jane@x.com" "Jane " "Doe" "pw123".
Definition jane_doe : RegisterData :=
  mkRegisterData "jane@x.com" "Jane Doe" "Doe" "pw123".

Definition ada : User := mkUser 1 "ada@x.com" "Ada" "Lovelace" "pbkdf2$pw" false.
Definition bob : User := mkUser 2 "bob@x.com" "Bob" "Hope" "pbkdf2$pw" true.

(** Ada is not verified, Bob is; each holds one code, issued at 0. *)
Definition db_users : DB :=
  mkDB [ada; bob] [mkOtp 1 111111 0; mkOtp 2 222222 0] [] [] [].

Import Messaging.

Definition example_validate_uuid (s : string) : bool :=
  Nat.eqb (String.length s) 36.

(** The validators of the examples: an email address has an at sign. *)
Definition example_run_validators (s : string) : list string :=
  if Py.contains "@" s then [] else ["Enter a valid email address."].

Definition lower_char (c : ascii) : ascii :=
  let n := nat_of_ascii c in
  if ((65 <=? n) && (n <=? 90))%nat then ascii_of_nat (n + 32) else c.

(** [s.lower()] on the letters A..Z *)
Fixpoint lower (s : string) : string :=
  match s with
  | EmptyString => EmptyString
  | String c s' => String (lower_char c) (lower s')
  end.

(** [to_uuid] of the examples: the key is kept hyphenated, in lower
    case. *)
Definition example_to_uuid (s : string) : string := lower s.

(** The serializer of the examples wants a body. *)
Definition example_serializer_run (db : DB) (d : MessageData)
    : list (string * Json) + MessageData :=
  if Py.is_empty (md_body d)
  then inl [("body", JList [JStr "This field may not be blank."])]
  else inr d.

Definition p_ada : Profile := mkProfile "aaaaaaaa-0000-4000-8000-000000000001" 1.
Definition p_bob : Profile := mkProfile "bbbbbbbb-0000-4000-8000-000000000002" 2.

(** The [n]-th message of Bob to Ada, unread, written at time [n]. *)
Definition letter (n : nat) : Message :=
  mkMessage (String.append "cccccccc-0000-4000-8000-00000000000"
                           (String (ascii_of_nat (96 + n)) ""))
            (Some (profile_id p_bob)) (profile_id p_ada) "hello" "how are you"
            false (Z.of_nat n).

(** Ada's inbox holds eleven messages. *)
Definition db_inbox : DB :=
  mkDB [ada; bob] [] [p_ada; p_bob] (map letter (seq 1 11)) [].

(** * Properties *)

(** ** Words of a string *)

Lemma is_empty_append_char (cur : string) (c : ascii) :
  Py.is_empty (String.append cur (String c "")) = false.
Proof. destruct cur; reflexivity. Qed.

Lemma is_empty_eq (s : string) : Py.is_empty s = true -> s = "".
Proof. destruct s; [reflexivity | discriminate]. Qed.

Lemma split_from_pending (b cur : string) :
  Py.is_empty cur = false -> (1 <= length (Py.split_from cur b))%nat.
Proof.
  revert cur; induction b as [|c b IH]; intros cur H; simpl.
  - rewrite H; simpl; lia.
  - destruct (Py.isspace c).
    + rewrite H; simpl; lia.
    + apply IH, is_empty_append_char.
Qed.

Lemma split_from_word (b cur : string) :
  Py.has_word b = true -> (1 <= length (Py.split_from cur b))%nat.
Proof.
  revert cur; induction b as [|c b IH]; intros cur H; simpl in *.
  - discriminate.
  - destruct (Py.isspace c); simpl in H.
    + destruct (Py.is_empty cur); simpl; [apply IH; assumption | lia].
    + apply split_from_pending, is_empty_append_char.
Qed.

Lemma split_from_suffix (a b cur : string) (c : ascii) :
  Py.isspace c = true ->
  (length (Py.split_from "" b)
   <= length (Py.split_from cur (String.append a (String c b))))%nat.
Proof.
  intros Hc; revert cur; induction a as [|d a IH]; intros cur; simpl.
  - rewrite Hc. destruct (Py.is_empty cur); simpl; lia.
  - destruct (Py.isspace d); [|apply IH].
    destruct (Py.is_empty cur); simpl; [apply IH|].
    specialize (IH ""); lia.
Qed.

Lemma split_from_two_words (a b cur : string) (c : ascii) :
  Py.isspace c = true ->
  Py.is_empty cur = false \/ Py.has_word a = true ->
  (1 + length (Py.split_from "" b)
   <= length (Py.split_from cur (String.append a (String c b))))%nat.
Proof.
  intros Hc; revert cur; induction a as [|d a IH]; intros cur H; simpl.
  - destruct H as [H|H]; [|discriminate].
    rewrite Hc, H; simpl; lia.
  - destruct (Py.isspace d) eqn:Hd; simpl in H.
    + destruct (Py.is_empty cur) eqn:He; simpl.
      * apply IH. right. destruct H as [H|H]; [congruence|].
        rewrite Hd in H. exact H.
      * pose proof (split_from_suffix a b "" c Hc). lia.
    + apply IH. left. apply is_empty_append_char.
Qed.

(** A name with white space between two words splits in two or more. *)
Lemma split_internal_space (a b : string) (c : ascii) :
  Py.isspace c = true -> Py.has_word a = true -> Py.has_word b = true ->
  (1 <? length (Py.split (String.append a (String c b))))%nat = true.
Proof.
  intros Hc Ha Hb. apply Nat.ltb_lt. unfold Py.split.
  pose proof (split_from_two_words a b "" c Hc (or_intror Ha)).
  pose proof (split_from_word b "" Hb). lia.
Qed.

Lemma split_from_lstrip (s : string) :
  Py.split_from "" (Py.lstrip s) = Py.split_from "" s.
Proof.
  induction s as [|c s IH]; simpl; [reflexivity|].
  destruct (Py.isspace c) eqn:Hc; simpl; [assumption | now rewrite Hc].
Qed.

Lemma split_from_blank (s cur : string) :
  Py.rstrip s = "" -> Py.split_from cur s = Py.split_from cur "".
Proof.
  revert cur; induction s as [|c s IH]; intros cur H; simpl in *; [reflexivity|].
  destruct (Py.isspace c); simpl in H; [|discriminate].
  destruct (Py.is_empty (Py.rstrip s)) eqn:He; [|discriminate].
  apply is_empty_eq in He. rewrite (IH "" He). reflexivity.
Qed.

Lemma split_from_rstrip (s cur : string) :
  Py.split_from cur (Py.rstrip s) = Py.split_from cur s.
Proof.
  revert cur; induction s as [|c s IH]; intros cur; [reflexivity|].
  cbn [Py.rstrip].
  destruct (Py.isspace c && Py.is_empty (Py.rstrip s)) eqn:E.
  - symmetry. apply split_from_blank. cbn [Py.rstrip]. now rewrite E.
  - cbn [Py.split_from]. now rewrite !IH.
Qed.

(** Trimming a string keeps its words. *)
Lemma split_strip (s : string) : Py.split (Py.strip s) = Py.split s.
Proof.
  unfold Py.split, Py.strip. now rewrite split_from_rstrip, split_from_lstrip.
Qed.

(** ** Registration *)

Lemma validate_two_words_first (attrs : RegisterData) :
  (1 <? length (Py.split (reg_first_name attrs)))%nat = true ->
  RegisterSerializer_validate attrs = Raise (No_spacing "first_name").
Proof. intros H. unfold RegisterSerializer_validate. now rewrite H. Qed.

Lemma validate_two_words (attrs : RegisterData) :
  (1 <? length (Py.split (reg_first_name attrs)))%nat = true
  \/ (1 <? length (Py.split (reg_last_name attrs)))%nat = true ->
  exists field, RegisterSerializer_validate attrs = Raise (No_spacing field).
Proof.
  intros H. unfold RegisterSerializer_validate.
  destruct (1 <? length (Py.split (reg_first_name attrs)))%nat; [eauto|].
  destruct H as [H|H]; [discriminate|]. rewrite H. eauto.
Qed.

(** C6 (as amended): a registration whose first or last name has a
    white-space character between two characters that are not white space
    fails with a validation error, and the store is as it was: no user is
    created. *)
Theorem Register_rejects_internal_whitespace :
  forall (make_password : string -> string) (env : Env) (data : RegisterData)
         (db : DB) (a b : string) (c : ascii),
    Py.isspace c = true -> Py.has_word a = true -> Py.has_word b = true ->
    reg_first_name data = String.append a (String c b)
    \/ reg_last_name data = String.append a (String c b) ->
    exists detail,
      RegisterView_post make_password env data db
      = (Raise (ValidationError detail), db).
Proof.
  intros mp env data db a b c Hc Ha Hb Hname.
  unfold RegisterView_post, RegisterSerializer_is_valid, bind, check,
    RegisterSerializer_to_internal_value.
  destruct (existsb _ (users db)); [eauto|].
  destruct (validate_two_words
              (mkRegisterData (CharField (reg_email data))
                 (CharField (reg_first_name data))
                 (CharField (reg_last_name data))
                 (CharField (reg_password data)))) as [field Hv].
  - unfold CharField; cbn [reg_first_name reg_last_name].
    rewrite !split_strip.
    destruct Hname as [-> | ->]; [left | right];
      now apply split_internal_space.
  - rewrite Hv. unfold No_spacing, run_validate. eauto.
Qed.

Lemma Register_rejects_internal_whitespace_witness :
  exists detail,
    RegisterView_post example_hash env0 jane_doe empty_db
    = (Raise (ValidationError detail), empty_db).
Proof.
  apply (Register_rejects_internal_whitespace example_hash env0 jane_doe
           empty_db "Jane" "Doe" " "%char); try reflexivity.
  left; reflexivity.
Defined.

(** C6 (as stated) fails: a first name with a space at its end passes
    [validate], and the registration creates the user. *)
Lemma Register_trailing_space_accepted :
  Py.contains " "%char (reg_first_name jane) = true
  /\ RegisterSerializer_validate jane = Ok jane
  /\ fst (RegisterView_post example_hash env0 jane empty_db)
     = Ok (mkResponse 201 [("message", JStr "OTP sent for email verification.");
                           ("email", JStr "jane@x.com")])
  /\ users (snd (RegisterView_post example_hash env0 jane empty_db))
     = [mkUser 1 "jane@x.com" "Jane" "Doe" "pbkdf2$pw123" false].
Proof. repeat split; reflexivity. Qed.

(** ** Queries *)

Lemma get_found_inv {A : Type} (cond : A -> bool) (table : list A) (row : A) :
  ORM.get cond table = ORM.Found row -> filter cond table = [row].
Proof.
  unfold ORM.get. destruct (filter cond table) as [|x [|y l]];
    intros H; inversion H; reflexivity.
Qed.

Lemma get_found_in {A : Type} (cond : A -> bool) (table : list A) (row : A) :
  ORM.get cond table = ORM.Found row -> In row table /\ cond row = true.
Proof.
  intros H. apply get_found_inv in H.
  apply filter_In. rewrite H. now left.
Qed.

Lemma User_by_email_found (e : string) (db : DB) (user : User) :
  User_by_email e db = ORM.Found user -> In user (users db) /\ email user = e.
Proof.
  intros H. apply get_found_in in H. destruct H as [Hin He].
  split; [assumption | now apply String.eqb_eq].
Qed.

(** ** Login *)

(** C3: a login whose email is that of an unverified user is answered
    401 with [next_action: send_otp] and the user's email, whatever the
    password; with no such user it is answered 404; the token pair view
    is reached only for a user that exists and is verified.  The store is
    never written. *)
Theorem Login_gated_on_verification :
  forall (req : LoginData) (db : DB),
    (forall e user,
        login_email req = Some e ->
        User_by_email e db = ORM.Found user ->
        is_email_verified user = false ->
        exists r,
          LoginView_post req db = (Ok (Reply r), db)
          /\ status r = 401%nat
          /\ lookup "next_action" (data r) = Some (JStr "send_otp")
          /\ lookup "email" (data r) = Some (JStr e))
    /\ (forall e,
           login_email req = Some e ->
           User_by_email e db = ORM.DoesNotExist ->
           LoginView_post req db
           = (Ok (Reply (mkResponse 404 [("error", JStr "User does not exist.")])),
              db))
    /\ (forall d,
           fst (LoginView_post req db) = Ok (Super_post d) ->
           exists e user,
             login_email req = Some e
             /\ User_by_email e db = ORM.Found user
             /\ is_email_verified user = true)
    /\ snd (LoginView_post req db) = db.
Proof.
  intros req db. unfold LoginView_post. repeat split.
  - intros e user He Hu Hv. rewrite He, Hu, Hv. cbn.
    apply User_by_email_found in Hu. destruct Hu as [_ ->].
    eexists; repeat split; reflexivity.
  - intros e He Hu. now rewrite He, Hu.
  - intros d. destruct (login_email req) as [e|]; [|discriminate].
    destruct (User_by_email e db) as [user| |] eqn:Hu; try discriminate.
    destruct (is_email_verified user) eqn:Hv; [|discriminate].
    intros _. exists e, user. auto.
  - destruct (login_email req) as [e|]; [|reflexivity].
    destruct (User_by_email e db) as [user| |]; try reflexivity.
    now destruct (is_email_verified user).
Qed.

Lemma Login_gated_on_verification_witness :
  exists r,
    LoginView_post (mkLoginData (Some "ada@x.com") (Some "wrong")) db_users
    = (Ok (Reply r), db_users)
    /\ status r = 401%nat
    /\ lookup "next_action" (data r) = Some (JStr "send_otp")
    /\ lookup "email" (data r) = Some (JStr "ada@x.com").
Proof.
  apply (proj1 (Login_gated_on_verification
                  (mkLoginData (Some "ada@x.com") (Some "wrong")) db_users)
               "ada@x.com" ada); reflexivity.
Defined.

(** ** Sending a code *)

(** The field's checks pass the trimmed value on, or raise a validation
    error. *)
Lemma EmailField_cases (run_validators : string -> list string) (e : string) :
  EmailField run_validators e = Ok (CharField e)
  \/ exists d, EmailField run_validators e = Raise (ValidationError d).
Proof.
  unfold EmailField. destruct (Py.is_empty (CharField e)); [right; eauto|].
  destruct (run_validators (CharField e)); [now left | right; eauto].
Qed.

(** C9: [SendOtpView.post] never answers with its own 404, "No account is
    associated with this email.": for an email that no user has, the
    serializer has raised a validation error under the key [email] before
    the view looks the user up, and nothing is written: the error of
    [validate_email], "User with this email does not exist.", when the
    value passes the field's own checks, and the field's error when it
    does not. *)
Theorem SendOtp_no_account_unreachable :
  forall (run_validators : string -> list string) (env : Env) (e : string)
         (db : DB),
    fst (SendOtpView_post run_validators env e db) <> Ok No_account
    /\ (User_by_email (CharField e) db = ORM.DoesNotExist ->
        exists detail,
          SendOtpView_post run_validators env e db
          = (Raise (ValidationError (JObj [("email", detail)])), db))
    /\ (User_by_email (CharField e) db = ORM.DoesNotExist ->
        EmailField run_validators e = Ok (CharField e) ->
        SendOtpView_post run_validators env e db = (Raise Unknown_email, db))
    /\ (forall d,
           EmailField run_validators e = Raise (ValidationError d) ->
           SendOtpView_post run_validators env e db
           = (Raise (ValidationError (JObj [("email", d)])), db)).
Proof.
  intros run_validators env e db.
  assert (Hfield : forall d,
             EmailField run_validators e = Raise (ValidationError d) ->
             SendOtpView_post run_validators env e db
             = (Raise (ValidationError (JObj [("email", d)])), db)).
  { intros d Hd.
    unfold SendOtpView_post, SendOtpSerializer_is_valid, bind, check.
    now rewrite Hd. }
  assert (Hunknown : User_by_email (CharField e) db = ORM.DoesNotExist ->
                     EmailField run_validators e = Ok (CharField e) ->
                     SendOtpView_post run_validators env e db
                     = (Raise Unknown_email, db)).
  { intros Hu Hok.
    unfold SendOtpView_post, SendOtpSerializer_is_valid, bind, check,
      SendOtpSerializer_validate_email.
    now rewrite Hok, Hu. }
  split; [|split; [|split; assumption]].
  - destruct (EmailField_cases run_validators e) as [Hok | [d Hd]].
    + unfold SendOtpView_post, SendOtpSerializer_is_valid, bind, check,
        SendOtpSerializer_validate_email.
      rewrite Hok.
      destruct (User_by_email (CharField e) db) as [user| |] eqn:Hu; cbn;
        try discriminate.
      rewrite Hu. cbn. discriminate.
    + rewrite (Hfield d Hd). discriminate.
  - intros Hu. destruct (EmailField_cases run_validators e) as [Hok | [d Hd]].
    + rewrite (Hunknown Hu Hok). unfold Unknown_email. eauto.
    + rewrite (Hfield d Hd). eauto.
Qed.

Lemma SendOtp_no_account_unreachable_witness :
  SendOtpView_post example_run_validators env0 "nobody@x.com" db_users
  = (Raise Unknown_email, db_users).
Proof.
  apply (proj1 (proj2 (proj2 (SendOtp_no_account_unreachable
                                example_run_validators env0 "nobody@x.com"
                                db_users))));
    reflexivity.
Defined.

(** A value that is no email address is refused by the field, before
    [validate_email] looks for the user. *)
Example SendOtpView_post_not_an_email :
  SendOtpView_post example_run_validators env0 "not-an-email" db_users
  = (Raise (ValidationError
              (JObj [("email", JList [JStr "Enter a valid email address."])])),
     db_users).
Proof. reflexivity. Qed.

(** ** Verifying a code *)

(** The serializer passes a code that matches and is still valid. *)
Lemma VerifyOtp_is_valid_ok (is_valid : Otp -> Z -> bool) (env : Env)
    (req : VerifyOtpData) (db : DB) (user : User) (otp_record : Otp) :
  User_by_email (CharField (vo_email req)) db = ORM.Found user ->
  Otp_get user (vo_otp req) db = ORM.Found otp_record ->
  is_valid otp_record (now env) = true ->
  VerifyOtpSerializer_is_valid is_valid env req db
  = (Ok (mkVerifyOtpData (CharField (vo_email req)) (vo_otp req)), db).
Proof.
  intros Hu Ho Hv.
  unfold VerifyOtpSerializer_is_valid, check, VerifyOtpSerializer_validate.
  cbn [vo_email vo_otp]. now rewrite Hu, Ho, Hv.
Qed.

(** C2: when the user's matching code exists and its validity window
    has elapsed, [VerifyOtpView.post] fails with the validation error
    "OTP has expired." that carries [next_action: request_new_otp], and
    the store is as it was: the user's verified flag is unchanged and the
    expired code is still there. *)
Theorem VerifyOtp_expired_leaves_store :
  forall (is_valid : Otp -> Z -> bool) (env : Env) (req : VerifyOtpData)
         (db : DB) (user : User) (otp_record : Otp),
    User_by_email (CharField (vo_email req)) db = ORM.Found user ->
    Otp_get user (vo_otp req) db = ORM.Found otp_record ->
    is_valid otp_record (now env) = false ->
    exists detail,
      VerifyOtpView_post is_valid env req db
      = (Raise (ValidationError (JObj detail)), db)
      /\ lookup "error" detail = Some (JList [JStr "OTP has expired."])
      /\ lookup "next_action" detail = Some (JList [JStr "request_new_otp"])
      /\ In user (users (snd (VerifyOtpView_post is_valid env req db)))
      /\ In otp_record (otps (snd (VerifyOtpView_post is_valid env req db))).
Proof.
  intros is_valid env req db user otp_record Hu Ho Hv.
  assert (E : VerifyOtpView_post is_valid env req db
              = (Raise (ValidationError
                   (as_serializer_error
                      (JObj [("error", JStr "OTP has expired.");
                             ("next_action", JStr "request_new_otp");
                             ("request_url", JStr "/api/v1/auth/send-otp/")]))),
                 db)).
  { unfold VerifyOtpView_post, VerifyOtpSerializer_is_valid, bind, check,
      VerifyOtpSerializer_validate.
    cbn [vo_email vo_otp]. now rewrite Hu, Ho, Hv. }
  rewrite E. eexists. split; [reflexivity|].
  repeat split; try reflexivity; cbn [snd].
  - now apply User_by_email_found in Hu.
  - now apply get_found_in in Ho.
Qed.

Lemma VerifyOtp_expired_leaves_store_witness :
  exists detail,
    VerifyOtpView_post example_is_valid env0
      (mkVerifyOtpData "ada@x.com" 111111) db_users
    = (Raise (ValidationError (JObj detail)), db_users)
    /\ lookup "error" detail = Some (JList [JStr "OTP has expired."])
    /\ lookup "next_action" detail = Some (JList [JStr "request_new_otp"])
    /\ In ada (users (snd (VerifyOtpView_post example_is_valid env0
                             (mkVerifyOtpData "ada@x.com" 111111) db_users)))
    /\ In (mkOtp 1 111111 0)
          (otps (snd (VerifyOtpView_post example_is_valid env0
                        (mkVerifyOtpData "ada@x.com" 111111) db_users))).
Proof.
  apply (VerifyOtp_expired_leaves_store example_is_valid env0
           (mkVerifyOtpData "ada@x.com" 111111) db_users ada (mkOtp 1 111111 0));
    reflexivity.
Defined.

Lemma filter_delete_same (uid : nat) (os : list Otp) :
  filter (fun o => Nat.eqb (otp_user o) uid)
         (ORM.delete (fun o => Nat.eqb (otp_user o) uid) os) = [].
Proof.
  unfold ORM.delete. induction os as [|o os IH]; [reflexivity|]. simpl.
  destruct (Nat.eqb (otp_user o) uid) eqn:E; simpl; [assumption|].
  now rewrite E.
Qed.

Lemma filter_delete_other (uid uid' : nat) (os : list Otp) :
  uid' <> uid ->
  filter (fun o => Nat.eqb (otp_user o) uid')
         (ORM.delete (fun o => Nat.eqb (otp_user o) uid) os)
  = filter (fun o => Nat.eqb (otp_user o) uid') os.
Proof.
  intros Hne. unfold ORM.delete. induction os as [|o os IH]; [reflexivity|].
  simpl. destruct (Nat.eqb (otp_user o) uid) eqn:E; simpl.
  - apply Nat.eqb_eq in E.
    destruct (Nat.eqb (otp_user o) uid') eqn:E'; [|assumption].
    apply Nat.eqb_eq in E'. congruence.
  - now rewrite IH.
Qed.

Lemma User_get_found (e : string) (db : DB) (user : User) :
  User_by_email e db = ORM.Found user -> User_get e db = (Ok user, db).
Proof. intros H. unfold User_get. now rewrite H. Qed.

(** C8 (as amended): when the request passes the serializer (the user
    exists, the code matches one of the user's and is still valid) and
    the user's email is already verified, [VerifyOtpView.post] deletes
    the user's codes, answers 200 with an [error] field, and leaves the
    table of users, and the codes of the other users, as they were. *)
Theorem VerifyOtp_already_verified :
  forall (is_valid : Otp -> Z -> bool) (env : Env) (req : VerifyOtpData)
         (db : DB) (user : User) (otp_record : Otp),
    User_by_email (CharField (vo_email req)) db = ORM.Found user ->
    Otp_get user (vo_otp req) db = ORM.Found otp_record ->
    is_valid otp_record (now env) = true ->
    is_email_verified user = true ->
    exists db',
      VerifyOtpView_post is_valid env req db
      = (Ok (mkResponse 200 [("error", JStr "Email address already verified!")]),
         db')
      /\ otps_of (user_id user) db' = []
      /\ users db' = users db
      /\ (forall uid, uid <> user_id user -> otps_of uid db' = otps_of uid db).
Proof.
  intros is_valid env req db user otp_record Hu Ho Hv Hver.
  unfold VerifyOtpView_post, bind.
  rewrite (VerifyOtp_is_valid_ok is_valid env req db user otp_record Hu Ho Hv).
  cbn [vo_email]. rewrite (User_get_found _ _ _ Hu), Hver.
  cbn. eexists. split; [reflexivity|].
  unfold otps_of; cbn. repeat split.
  - apply filter_delete_same.
  - intros uid Hne. now apply filter_delete_other.
Qed.

Lemma VerifyOtp_already_verified_witness :
  exists db',
    VerifyOtpView_post example_is_valid (mkEnv 100 0 "")
      (mkVerifyOtpData "bob@x.com" 222222) db_users
    = (Ok (mkResponse 200 [("error", JStr "Email address already verified!")]),
       db')
    /\ otps_of (user_id bob) db' = []
    /\ users db' = users db_users
    /\ (forall uid, uid <> user_id bob -> otps_of uid db' = otps_of uid db_users).
Proof.
  apply (VerifyOtp_already_verified example_is_valid (mkEnv 100 0 "")
           (mkVerifyOtpData "bob@x.com" 222222) db_users bob (mkOtp 2 222222 0));
    reflexivity.
Defined.

(** C8 (as stated) fails: for a verified user and a code that is not the
    user's, the serializer raises the validation error (status 400) and
    the user's code is still in the store. *)
Lemma VerifyOtp_verified_user_wrong_code :
  User_by_email "bob@x.com" db_users = ORM.Found bob
  /\ is_email_verified bob = true
  /\ VerifyOtpView_post example_is_valid env0
       (mkVerifyOtpData "bob@x.com" 999999) db_users
     = (Raise (ValidationError
                 (JObj [("error", JList [JStr "Invalid OTP provided."])])),
        db_users)
  /\ status_of (ValidationError
                  (JObj [("error", JList [JStr "Invalid OTP provided."])]))
     = 400%nat
  /\ otps_of (user_id bob) db_users = [mkOtp 2 222222 0].
Proof. repeat split; reflexivity. Qed.

(** ** Rules for handlers *)

Lemma hoare_ret {A : Type} (P : DB -> Prop) (a : A) (Q : A -> DB -> Prop)
    (E : DB -> Prop) :
  (forall db, P db -> Q a db) -> hoare P (ret a) Q E.
Proof. intros H db HP. now apply H. Qed.

Lemma hoare_raise {A : Type} (P : DB -> Prop) (e : Exn) (Q : A -> DB -> Prop)
    (E : DB -> Prop) :
  (forall db, P db -> E db) -> hoare P (raise e) Q E.
Proof. intros H db HP. now apply H. Qed.

Lemma hoare_bind {A B : Type} (P : DB -> Prop) (m : M A) (k : A -> M B)
    (R : A -> DB -> Prop) (Q : B -> DB -> Prop) (E : DB -> Prop) :
  hoare P m R E -> (forall a, hoare (R a) (k a) Q E) -> hoare P (bind m k) Q E.
Proof.
  intros Hm Hk db HP. unfold bind. specialize (Hm db HP).
  destruct (m db) as [[a|e] db']; [now apply Hk | assumption].
Qed.

Lemma hoare_check {A : Type} (P : DB -> Prop) (f : DB -> Result A)
    (Q : A -> DB -> Prop) (E : DB -> Prop) :
  (forall db, P db -> match f db with Ok a => Q a db | Raise _ => E db end) ->
  hoare P (check f) Q E.
Proof.
  intros H db HP. unfold check. specialize (H db HP). now destruct (f db).
Qed.

Lemma hoare_write (P : DB -> Prop) (f : DB -> DB) (Q : unit -> DB -> Prop)
    (E : DB -> Prop) :
  (forall db, P db -> Q tt (f db)) -> hoare P (write f) Q E.
Proof. intros H db HP. now apply H. Qed.

Lemma hoare_read {A : Type} (P : DB -> Prop) (f : DB -> A)
    (Q : A -> DB -> Prop) (E : DB -> Prop) :
  (forall db, P db -> Q (f db) db) -> hoare P (read f) Q E.
Proof. intros H db HP. now apply H. Qed.

Lemma hoare_weaken {A : Type} (P P' : DB -> Prop) (m : M A)
    (Q Q' : A -> DB -> Prop) (E : DB -> Prop) :
  hoare P' m Q' E -> (forall db, P db -> P' db) ->
  (forall a db, Q' a db -> Q a db) -> hoare P m Q E.
Proof.
  intros Hm HP HQ db Hdb. specialize (Hm db (HP db Hdb)).
  destruct (m db) as [[a|e] db']; [now apply HQ | assumption].
Qed.

(** ** At most one code per user *)

Lemma le_fold_max (x : nat) (l : list nat) :
  In x l -> (x <= fold_right Nat.max 0 l)%nat.
Proof.
  induction l as [|y l IH]; simpl; [contradiction|].
  intros [-> | H]; [lia | specialize (IH H); lia].
Qed.

Lemma fresh_user_id_new (db : DB) :
  ~ In (fresh_user_id db) (map user_id (users db)).
Proof.
  unfold fresh_user_id. intros H. apply le_fold_max in H. lia.
Qed.

Lemma otps_of_stranger (uid : nat) (db : DB) :
  otps_owned db -> ~ In uid (map user_id (users db)) -> otps_of uid db = [].
Proof.
  intros Hown Hnew. unfold otps_of.
  destruct (filter _ (otps db)) as [|o l] eqn:E; [reflexivity|].
  assert (Hin : In o (filter (fun o => Nat.eqb (otp_user o) uid) (otps db)))
    by (rewrite E; now left).
  apply filter_In in Hin. destruct Hin as [Hin Heq].
  apply Nat.eqb_eq in Heq. subst uid. now apply Hown in Hin.
Qed.

Lemma otps_of_app (uid : nat) (db : DB) (o : Otp) :
  otps_of uid (set_otps (otps db ++ [o]) db)
  = otps_of uid db ++ (if Nat.eqb (otp_user o) uid then [o] else []).
Proof. unfold otps_of; cbn. now rewrite filter_app. Qed.

Lemma length_filter_filter {A : Type} (p q : A -> bool) (l : list A) :
  (length (filter p (filter q l)) <= length (filter p l))%nat.
Proof.
  induction l as [|x l IH]; simpl; [lia|].
  destruct (q x); simpl; destruct (p x); simpl; lia.
Qed.

Lemma invariant_mail (m : Mail) (db : DB) :
  otp_invariant db -> otp_invariant (send_mail m db).
Proof. intros H; exact H. Qed.

Lemma invariant_users (us : list User) (db : DB) :
  otp_invariant db ->
  (forall i, In i (map user_id (users db)) -> In i (map user_id us)) ->
  otp_invariant (set_users us db).
Proof.
  intros [H1 H2] Hids. split; [exact H1|].
  intros o Ho. apply Hids. now apply H2.
Qed.

Lemma invariant_delete (uid : nat) (db : DB) :
  otp_invariant db ->
  otp_invariant
    (set_otps (ORM.delete (fun o => Nat.eqb (otp_user o) uid) (otps db)) db).
Proof.
  intros [H1 H2]. split.
  - intros u. unfold otps_of; cbn. unfold ORM.delete.
    pose proof (length_filter_filter (fun o => Nat.eqb (otp_user o) u)
                  (fun o => negb (Nat.eqb (otp_user o) uid)) (otps db)).
    specialize (H1 u). unfold otps_of in H1. lia.
  - intros o Ho. cbn in Ho. unfold ORM.delete in Ho.
    apply filter_In in Ho. now apply H2.
Qed.

Lemma invariant_issue (uid : nat) (code t : Z) (db : DB) :
  otp_invariant db ->
  In uid (map user_id (users db)) ->
  otps_of uid db = [] ->
  otp_invariant (set_otps (otps db ++ [mkOtp uid code t]) db).
Proof.
  intros [H1 H2] Hin Hnone. split.
  - intros u. rewrite otps_of_app. cbn [otp_user].
    destruct (Nat.eqb uid u) eqn:E.
    + apply Nat.eqb_eq in E. subst u. rewrite Hnone. simpl. lia.
    + rewrite app_nil_r. apply H1.
  - intros o Ho. cbn in Ho. apply in_app_or in Ho.
    destruct Ho as [Ho | [<- | []]]; [now apply H2 | exact Hin].
Qed.

Lemma save_keeps_ids (u : User) (us : list User) (i : nat) :
  In i (map user_id us) ->
  In i (map user_id (ORM.save (fun a b => Nat.eqb (user_id a) (user_id b)) u us)).
Proof.
  unfold ORM.save. intros H.
  destruct (existsb _ us).
  - rewrite map_map. apply in_map_iff in H. destruct H as [r [<- Hr]].
    apply in_map_iff. exists r. split; [|assumption].
    destruct (Nat.eqb (user_id u) (user_id r)) eqn:E; [|reflexivity].
    now apply Nat.eqb_eq in E.
  - rewrite map_app. apply in_or_app. now left.
Qed.

Lemma hoare_snd {A : Type} (P Q : DB -> Prop) (m : M A) (db : DB) :
  hoare P m (fun _ => Q) Q -> P db -> Q (snd (m db)).
Proof.
  intros H HP. specialize (H db HP). now destruct (m db) as [[a|e] db'].
Qed.

Lemma check_keeps {A : Type} (P : DB -> Prop) (f : DB -> Result A) :
  hoare P (check f) (fun _ => P) P.
Proof. apply hoare_check. intros db HP. now destruct (f db). Qed.

Lemma User_get_keeps (e : string) :
  hoare otp_invariant (User_get e)
        (fun u db => otp_invariant db /\ known u db) otp_invariant.
Proof.
  intros db H. unfold User_get.
  destruct (User_by_email e db) as [user| |] eqn:Hu; try assumption.
  split; [assumption|]. apply User_by_email_found in Hu.
  unfold known. apply in_map. tauto.
Qed.

Lemma User_save_keeps (u v : User) :
  hoare (fun db => otp_invariant db /\ known v db) (User_save u)
        (fun _ db => otp_invariant db /\ known v db) otp_invariant.
Proof.
  apply hoare_write. intros db [H Hk]. split.
  - apply invariant_users; [assumption|]. intros i. apply save_keeps_ids.
  - unfold known; cbn. now apply save_keeps_ids.
Qed.

Lemma delete_otps_keeps (u : User) :
  hoare (fun db => otp_invariant db /\ known u db) (delete_otps u)
        (fun _ db => otp_invariant db /\ known u db
                     /\ otps_of (user_id u) db = [])
        otp_invariant.
Proof.
  apply hoare_write. intros db [H Hk]. repeat split.
  - now apply invariant_delete.
  - now apply invariant_delete.
  - exact Hk.
  - unfold otps_of; cbn. apply filter_delete_same.
Qed.

Lemma send_otp_keeps (env : Env) (u : User) :
  hoare (fun db => otp_invariant db /\ known u db
                   /\ otps_of (user_id u) db = [])
        (SendEmail_send_otp env u) (fun _ => otp_invariant) otp_invariant.
Proof.
  apply hoare_write. intros db [H [Hk Hnone]].
  apply invariant_mail. now apply invariant_issue.
Qed.

Lemma send_password_reset_otp_keeps (env : Env) (u : User) :
  hoare (fun db => otp_invariant db /\ known u db
                   /\ otps_of (user_id u) db = [])
        (SendEmail_send_password_reset_otp env u)
        (fun _ => otp_invariant) otp_invariant.
Proof.
  apply hoare_write. intros db [H [Hk Hnone]].
  apply invariant_mail. now apply invariant_issue.
Qed.

Lemma create_user_keeps (make_password : string -> string)
    (attrs : RegisterData) :
  hoare otp_invariant (create_user make_password attrs)
        (fun u db => otp_invariant db /\ known u db
                     /\ otps_of (user_id u) db = [])
        otp_invariant.
Proof.
  intros db H. unfold create_user. cbn zeta.
  set (user := mkUser _ _ _ _ _ _).
  assert (Hinv : otp_invariant (set_users (users db ++ [user]) db)).
  { apply invariant_users; [assumption|]. intros i Hi.
    rewrite map_app. apply in_or_app. now left. }
  repeat split; try apply Hinv.
  - unfold known; cbn. rewrite map_app. apply in_or_app. right. now left.
  - change (otps_of (fresh_user_id db) db = []).
    apply otps_of_stranger; [apply H | apply fresh_user_id_new].
Qed.

Lemma RegisterView_post_keeps (make_password : string -> string) (env : Env)
    (req : RegisterData) :
  hoare otp_invariant (RegisterView_post make_password env req)
        (fun _ => otp_invariant) otp_invariant.
Proof.
  unfold RegisterView_post, RegisterSerializer_is_valid, RegisterSerializer_create.
  eapply hoare_bind.
  { eapply hoare_bind; [apply check_keeps | intros a; apply check_keeps]. }
  intros attrs. eapply hoare_bind; [apply create_user_keeps|].
  intros user. eapply hoare_bind; [apply send_otp_keeps|].
  intros ?. apply hoare_ret. auto.
Qed.

Lemma LoginView_post_keeps (req : LoginData) :
  hoare otp_invariant (LoginView_post req) (fun _ => otp_invariant) otp_invariant.
Proof.
  intros db H. unfold LoginView_post.
  destruct (login_email req) as [e|]; [|assumption].
  destruct (User_by_email e db) as [user| |]; try assumption.
  now destruct (is_email_verified user).
Qed.

Lemma issue_keeps (env : Env) (user : User) (r : Response) :
  hoare (fun db => otp_invariant db /\ known user db)
        (delete_otps user ;;; SendEmail_send_otp env user ;;; ret r)
        (fun _ => otp_invariant) otp_invariant.
Proof.
  eapply hoare_bind; [apply delete_otps_keeps|].
  intros ?. eapply hoare_bind; [apply send_otp_keeps|].
  intros ?. apply hoare_ret. auto.
Qed.

Lemma SendOtpView_post_keeps (run_validators : string -> list string)
    (env : Env) (e : string) :
  hoare otp_invariant (SendOtpView_post run_validators env e)
        (fun _ => otp_invariant) otp_invariant.
Proof.
  unfold SendOtpView_post, SendOtpSerializer_is_valid.
  eapply hoare_bind; [apply check_keeps|].
  intros mail db H.
  destruct (User_by_email mail db) as [user| |] eqn:Hu; try assumption.
  apply issue_keeps. split; [assumption|].
  apply User_by_email_found in Hu. unfold known. apply in_map. tauto.
Qed.

Lemma VerifyOtpView_post_keeps (is_valid : Otp -> Z -> bool) (env : Env)
    (req : VerifyOtpData) :
  hoare otp_invariant (VerifyOtpView_post is_valid env req)
        (fun _ => otp_invariant) otp_invariant.
Proof.
  unfold VerifyOtpView_post, VerifyOtpSerializer_is_valid.
  eapply hoare_bind; [apply check_keeps|].
  intros attrs. eapply hoare_bind; [apply User_get_keeps|].
  intros user. destruct (is_email_verified user).
  - eapply hoare_bind; [apply delete_otps_keeps|].
    intros ?. apply hoare_ret. tauto.
  - eapply hoare_bind; [apply User_save_keeps|].
    intros ?. eapply hoare_bind; [apply delete_otps_keeps|].
    intros ?. eapply hoare_bind.
    { apply hoare_write with (Q := fun _ => otp_invariant).
      intros db H. apply invariant_mail. tauto. }
    intros ?. apply hoare_ret. auto.
Qed.

Lemma IsUnauthenticated_keeps (request_user : option nat) :
  hoare otp_invariant (IsUnauthenticated request_user)
        (fun _ => otp_invariant) otp_invariant.
Proof. destruct request_user; intros db H; assumption. Qed.

Lemma PasswordResetRequestView_post_keeps (env : Env)
    (request_user : option nat) (e : string) :
  hoare otp_invariant (PasswordResetRequestView_post env request_user e)
        (fun _ => otp_invariant) otp_invariant.
Proof.
  unfold PasswordResetRequestView_post,
    RequestPasswordResetOtpSerializer_is_valid.
  eapply hoare_bind; [apply IsUnauthenticated_keeps|].
  intros ?. eapply hoare_bind; [apply check_keeps|].
  intros mail. eapply hoare_bind; [apply User_get_keeps|].
  intros user. eapply hoare_bind; [apply delete_otps_keeps|].
  intros ?. eapply hoare_bind; [apply send_password_reset_otp_keeps|].
  intros ?. apply hoare_ret. auto.
Qed.

Lemma PasswordResetConfirmView_post_keeps (make_password : string -> string)
    (is_valid : Otp -> Z -> bool) (env : Env) (request_user : option nat)
    (req : ResetPasswordData) :
  hoare otp_invariant
        (PasswordResetConfirmView_post make_password is_valid env request_user req)
        (fun _ => otp_invariant) otp_invariant.
Proof.
  unfold PasswordResetConfirmView_post, ResetPasswordWithOtpSerializer_is_valid,
    ResetPasswordWithOtpSerializer_save, VerifyOtpSerializer_is_valid.
  eapply hoare_bind; [apply IsUnauthenticated_keeps|].
  intros ?. eapply hoare_bind.
  { eapply hoare_bind; [apply check_keeps|].
    intros checked. apply hoare_ret with (Q := fun _ => otp_invariant). auto. }
  intros attrs. eapply hoare_bind.
  { eapply hoare_bind; [apply User_get_keeps|].
    intros user.
    apply hoare_weaken
      with (P' := fun db => otp_invariant db /\ known user db)
           (Q' := fun _ db => otp_invariant db /\ known user db);
      [apply User_save_keeps | auto | intros x db H; apply H]. }
  intros ?. eapply hoare_bind; [apply User_get_keeps|].
  intros user. eapply hoare_bind; [apply delete_otps_keeps|].
  intros ?. eapply hoare_bind.
  { apply hoare_write with (Q := fun _ => otp_invariant).
    intros db H. apply invariant_mail. tauto. }
  intros ?. apply hoare_ret. auto.
Qed.

Lemma handle_keeps (make_password : string -> string)
    (is_valid : Otp -> Z -> bool) (run_validators : string -> list string)
    (env : Env) (req : Request) (db : DB) :
  otp_invariant db ->
  otp_invariant (handle make_password is_valid run_validators env req db).
Proof.
  intros H. destruct req; cbn [handle];
    apply (hoare_snd otp_invariant otp_invariant); try assumption.
  - apply RegisterView_post_keeps.
  - apply LoginView_post_keeps.
  - apply SendOtpView_post_keeps.
  - apply VerifyOtpView_post_keeps.
  - apply PasswordResetRequestView_post_keeps.
  - apply PasswordResetConfirmView_post_keeps.
Qed.

Lemma ret_keeps {A : Type} (P : DB -> Prop) (a : A) :
  hoare P (ret a) (fun _ => P) P.
Proof. apply hoare_ret. auto. Qed.

Lemma raise_keeps {A : Type} (P : DB -> Prop) (e : Exn) :
  hoare P (@raise A e) (fun _ => P) P.
Proof. apply hoare_raise. auto. Qed.

Lemma read_keeps {A : Type} (P : DB -> Prop) (f : DB -> A) :
  hoare P (read f) (fun _ => P) P.
Proof. apply hoare_read. auto. Qed.

Lemma IsAuthenticated_keeps (P : DB -> Prop) (request_user : option nat) :
  hoare P (IsAuthenticated request_user) (fun _ => P) P.
Proof. destruct request_user; intros db H; assumption. Qed.

Lemma user_profile_keeps (P : DB -> Prop) (uid : nat) :
  hoare P (user_profile uid) (fun _ => P) P.
Proof.
  intros db H. unfold user_profile.
  now destruct (ORM.get _ (profiles db)).
Qed.

Lemma messages_keeps (f : DB -> list Message) :
  hoare otp_invariant (write (fun db => set_messages (f db) db))
        (fun _ => otp_invariant) otp_invariant.
Proof. apply hoare_write. intros db H. exact H. Qed.

(** The steps of a handler that writes no user and no code. *)
Ltac keeps :=
  repeat match goal with
    | |- hoare _ (bind _ _) _ _ => eapply hoare_bind; [|intros ?]
    | |- hoare _ (ret _) _ _ => apply ret_keeps
    | |- hoare _ (raise _) _ _ => apply raise_keeps
    | |- hoare _ (read _) _ _ => apply read_keeps
    | |- hoare _ (check _) _ _ => apply check_keeps
    | |- hoare _ (IsAuthenticated _) _ _ => apply IsAuthenticated_keeps
    | |- hoare _ (user_profile _) _ _ => apply user_profile_keeps
    | |- hoare _ (write _) _ _ => apply messages_keeps
    | |- hoare _ (if ?b then _ else _) _ _ => destruct b
    | |- hoare _ (match ?x with _ => _ end) _ _ => destruct x
    end.

Lemma InboxView_get_keeps (request_user : option nat) (page_number : nat) :
  hoare otp_invariant (InboxView_get request_user page_number)
        (fun _ => otp_invariant) otp_invariant.
Proof. unfold InboxView_get. keeps. Qed.

Lemma InboxGenericView_list_keeps (icontains : string -> string -> bool)
    (page_size : option nat) (request_user : option nat)
    (search : list string) (page_number : nat) :
  hoare otp_invariant
        (InboxGenericView_list icontains page_size request_user search
           page_number)
        (fun _ => otp_invariant) otp_invariant.
Proof. unfold InboxGenericView_list. keeps. Qed.

Lemma ViewMessage_get_keeps (validate_uuid : string -> bool)
    (to_uuid : string -> string)
    (request_user : option nat) (id : string) :
  hoare otp_invariant (ViewMessage_get validate_uuid to_uuid request_user id)
        (fun _ => otp_invariant) otp_invariant.
Proof. unfold ViewMessage_get, Message_save. keeps. Qed.

Lemma CreateMessage_post_keeps (validate_uuid : string -> bool)
    (to_uuid : string -> string)
    (MessageSerializer_run :
       DB -> MessageData -> list (string * Json) + MessageData)
    (env : Env) (request_user : option nat) (req : MessageData)
    (pid : string) :
  hoare otp_invariant
        (CreateMessage_post validate_uuid to_uuid MessageSerializer_run env
           request_user req pid)
        (fun _ => otp_invariant) otp_invariant.
Proof.
  unfold CreateMessage_post. keeps.
  intros db H. exact H.
Qed.

Lemma DeleteMessage_delete_keeps (validate_uuid : string -> bool)
    (to_uuid : string -> string)
    (request_user : option nat) (message_id : string) :
  hoare otp_invariant
        (DeleteMessage_delete validate_uuid to_uuid request_user message_id)
        (fun _ => otp_invariant) otp_invariant.
Proof. unfold DeleteMessage_delete. keeps. Qed.

Section SystemFacts.

Variable make_password : string -> string.
Variable is_valid : Otp -> Z -> bool.
Variable run_validators : string -> list string.
Variable validate_uuid : string -> bool.
Variable to_uuid : string -> string.
Variable MessageSerializer_run :
  DB -> MessageData -> list (string * Json) + MessageData.
Variable icontains : string -> string -> bool.
Variable CustomPagination_page_size : option nat.

Lemma serve_keeps (env : Env) (op : Operation) (db : DB) :
  otp_invariant db ->
  otp_invariant
    (serve make_password is_valid run_validators validate_uuid to_uuid
       MessageSerializer_run icontains CustomPagination_page_size env op db).
Proof.
  intros H. destruct op; cbn [serve].
  - now apply handle_keeps.
  - apply (hoare_snd otp_invariant otp_invariant); [|assumption].
    apply InboxView_get_keeps.
  - apply (hoare_snd otp_invariant otp_invariant); [|assumption].
    apply InboxGenericView_list_keeps.
  - apply (hoare_snd otp_invariant otp_invariant); [|assumption].
    apply ViewMessage_get_keeps.
  - apply (hoare_snd otp_invariant otp_invariant); [|assumption].
    apply CreateMessage_post_keeps.
  - apply (hoare_snd otp_invariant otp_invariant); [|assumption].
    apply DeleteMessage_delete_keeps.
Qed.

Lemma run_keeps (ops : list (Env * Operation)) (db : DB) :
  otp_invariant db ->
  otp_invariant
    (run make_password is_valid run_validators validate_uuid to_uuid
       MessageSerializer_run icontains CustomPagination_page_size ops db).
Proof.
  unfold run. revert db. induction ops as [|[env op] ops IH]; intros db H.
  - exact H.
  - cbn [fold_left fst snd]. apply IH. now apply serve_keeps.
Qed.

End SystemFacts.

Lemma empty_db_invariant : otp_invariant empty_db.
Proof. split; [intros uid; cbn; lia | intros o []]. Qed.

Lemma issued_after_delete (uid : nat) (code t : Z) (os : list Otp) :
  filter (fun o => Nat.eqb (otp_user o) uid)
         (ORM.delete (fun o => Nat.eqb (otp_user o) uid) os ++ [mkOtp uid code t])
  = [mkOtp uid code t].
Proof.
  rewrite filter_app, filter_delete_same. cbn. now rewrite Nat.eqb_refl.
Qed.

(** C1: [SendOtpView.post] (for an email that passes the field's checks)
    and [PasswordResetRequestView.post] delete every code of the user
    and then create the new one, which is then the user's only code; and
    after any sequence of requests to the handlers of accounts and
    messaging, from the empty store or from any store that already has at
    most one code per user, each owned by a user, no user has more than
    one code. *)
Theorem one_active_otp_per_user :
  forall (make_password : string -> string) (is_valid : Otp -> Z -> bool)
         (run_validators : string -> list string)
         (validate_uuid : string -> bool)
         (to_uuid : string -> string)
         (MessageSerializer_run :
            DB -> MessageData -> list (string * Json) + MessageData)
         (icontains : string -> string -> bool)
         (CustomPagination_page_size : option nat),
    (forall env e db user,
        EmailField run_validators e = Ok (CharField e) ->
        User_by_email (CharField e) db = ORM.Found user ->
        otps (snd (SendOtpView_post run_validators env e db))
        = ORM.delete (fun o => Nat.eqb (otp_user o) (user_id user)) (otps db)
          ++ [mkOtp (user_id user) (random_otp env) (now env)]
        /\ otps_of (user_id user)
              (snd (SendOtpView_post run_validators env e db))
           = [mkOtp (user_id user) (random_otp env) (now env)])
    /\ (forall env e db user,
           User_by_email (CharField e) db = ORM.Found user ->
           otps (snd (PasswordResetRequestView_post env None e db))
           = ORM.delete (fun o => Nat.eqb (otp_user o) (user_id user)) (otps db)
             ++ [mkOtp (user_id user) (random_otp env) (now env)]
           /\ otps_of (user_id user)
                 (snd (PasswordResetRequestView_post env None e db))
              = [mkOtp (user_id user) (random_otp env) (now env)])
    /\ (forall ops db,
           otp_invariant db ->
           at_most_one_otp
             (run make_password is_valid run_validators validate_uuid to_uuid
                MessageSerializer_run icontains CustomPagination_page_size
                ops db))
    /\ (forall ops,
           at_most_one_otp
             (run make_password is_valid run_validators validate_uuid to_uuid
                MessageSerializer_run icontains CustomPagination_page_size
                ops empty_db)).
Proof.
  intros make_password is_valid run_validators validate_uuid to_uuid
    MessageSerializer_run icontains CustomPagination_page_size.
  assert (Hsend : forall env e db user,
             EmailField run_validators e = Ok (CharField e) ->
             User_by_email (CharField e) db = ORM.Found user ->
             otps (snd (SendOtpView_post run_validators env e db))
             = ORM.delete (fun o => Nat.eqb (otp_user o) (user_id user)) (otps db)
               ++ [mkOtp (user_id user) (random_otp env) (now env)]).
  { intros env e db user Hok H.
    unfold SendOtpView_post, SendOtpSerializer_is_valid, bind, check,
      SendOtpSerializer_validate_email.
    rewrite Hok, H. cbn. rewrite H. reflexivity. }
  assert (Hreset : forall env e db user,
             User_by_email (CharField e) db = ORM.Found user ->
             otps (snd (PasswordResetRequestView_post env None e db))
             = ORM.delete (fun o => Nat.eqb (otp_user o) (user_id user)) (otps db)
               ++ [mkOtp (user_id user) (random_otp env) (now env)]).
  { intros env e db user H.
    unfold PasswordResetRequestView_post,
      RequestPasswordResetOtpSerializer_is_valid,
      bind, check, SendOtpSerializer_validate_email, User_get.
    cbn. rewrite H. cbn. rewrite H. reflexivity. }
  split; [|split; [|split]].
  - intros env e db user Hok H. split; [now apply Hsend|].
    unfold otps_of. rewrite (Hsend env e db user Hok H).
    apply issued_after_delete.
  - intros env e db user H. split; [now apply Hreset|].
    unfold otps_of. rewrite (Hreset env e db user H).
    apply issued_after_delete.
  - intros ops db H. now apply run_keeps.
  - intros ops. apply run_keeps, empty_db_invariant.
Qed.

Lemma one_active_otp_per_user_witness :
  otps (snd (SendOtpView_post example_run_validators env0 "ada@x.com" db_users))
  = ORM.delete (fun o => Nat.eqb (otp_user o) (user_id ada)) (otps db_users)
    ++ [mkOtp (user_id ada) (random_otp env0) (now env0)]
  /\ otps_of (user_id ada)
        (snd (SendOtpView_post example_run_validators env0 "ada@x.com" db_users))
     = [mkOtp (user_id ada) (random_otp env0) (now env0)].
Proof.
  apply (proj1 (one_active_otp_per_user example_hash example_is_valid
                  example_run_validators example_validate_uuid example_to_uuid
                  example_serializer_run String.eqb None)
               env0 "ada@x.com" db_users ada); reflexivity.
Defined.

(** ** Creating a message *)

Import Messaging.

Section CreateMessageFacts.

Variable validate_uuid : string -> bool.
Variable to_uuid : string -> string.
Variable MessageSerializer_run :
  DB -> MessageData -> list (string * Json) + MessageData.

(** C7: a logged-in caller whose own profile is the recipient profile
    is refused with the validation error "You cannot message yourself."
    and the store is as it was: no message is created. *)
Theorem CreateMessage_rejects_own_profile :
  forall (env : Env) (uid : nat) (req : MessageData) (pid : string) (db : DB)
         (recipient me : Profile),
    validate_uuid pid = true ->
    ORM.get (fun p => String.eqb (profile_id p) (to_uuid pid)) (profiles db)
    = ORM.Found recipient ->
    ORM.get (fun p => Nat.eqb (profile_user p) uid) (profiles db)
    = ORM.Found me ->
    profile_id me = profile_id recipient ->
    CreateMessage_post validate_uuid to_uuid MessageSerializer_run env
      (Some uid) req pid db
    = (Raise Cannot_message_yourself, db)
    /\ status_of Cannot_message_yourself = 400%nat.
Proof.
  intros env uid req pid db recipient me Hv Hr Hme Hid.
  split; [|reflexivity].
  unfold CreateMessage_post. rewrite Hv. cbn [negb].
  unfold bind, read, user_profile, ret, raise. cbv beta.
  rewrite Hr, Hme. cbv beta iota. rewrite Hid, String.eqb_refl.
  reflexivity.
Qed.

(** C10: a caller who is not logged in, writing to an existing profile
    (under any spelling of its id), is never refused as messaging
    themselves, whatever the recipient: when the serializer accepts the
    data, the request is answered 201 and exactly one message is
    appended, whose sender is null and whose recipient is that profile;
    when the serializer refuses the data, its errors are raised and the
    store is as it was. *)
Theorem CreateMessage_anonymous_sender_null :
  forall (env : Env) (req : MessageData) (pid : string) (db : DB)
         (target : Profile),
    validate_uuid pid = true ->
    ORM.get (fun p => String.eqb (profile_id p) (to_uuid pid)) (profiles db)
    = ORM.Found target ->
    fst (CreateMessage_post validate_uuid to_uuid MessageSerializer_run env
           None req pid db)
    <> Raise Cannot_message_yourself
    /\ (forall validated,
           MessageSerializer_run db
             (mkMessageData (md_subject req) (md_body req)
                (Some (profile_id target)))
           = inr validated ->
           CreateMessage_post validate_uuid to_uuid MessageSerializer_run env
             None req pid db
           = (Ok (mkResponse 201
                    (MessageSerializer_data
                       (mkMessage (new_uuid env) None (profile_id target)
                          (md_subject validated) (md_body validated) false
                          (now env)))),
              set_messages
                (messages db
                 ++ [mkMessage (new_uuid env) None (profile_id target)
                       (md_subject validated) (md_body validated) false
                       (now env)])
                db))
    /\ (forall errors,
           MessageSerializer_run db
             (mkMessageData (md_subject req) (md_body req)
                (Some (profile_id target)))
           = inl errors ->
           CreateMessage_post validate_uuid to_uuid MessageSerializer_run env
             None req pid db
           = (Raise (ValidationError (JObj errors)), db)).
Proof.
  intros env req pid db target Hv Hr.
  unfold CreateMessage_post. rewrite Hv. cbn [negb].
  unfold bind, read, ret, raise, MessageSerializer_save. cbv beta.
  rewrite Hr. cbv beta iota.
  split; [|split].
  - now destruct (MessageSerializer_run db _).
  - intros validated Hrun. now rewrite Hrun.
  - intros errors Hrun. now rewrite Hrun.
Qed.

End CreateMessageFacts.

Lemma CreateMessage_rejects_own_profile_witness :
  CreateMessage_post example_validate_uuid example_to_uuid
    example_serializer_run env0 (Some 1%nat)
    (mkMessageData "hello" "to myself" None) (profile_id p_ada) db_inbox
  = (Raise Cannot_message_yourself, db_inbox)
  /\ status_of Cannot_message_yourself = 400%nat.
Proof.
  apply (CreateMessage_rejects_own_profile example_validate_uuid
           example_to_uuid example_serializer_run env0 1%nat
           (mkMessageData "hello" "to myself" None) (profile_id p_ada) db_inbox
           p_ada p_ada); reflexivity.
Defined.

Lemma CreateMessage_anonymous_sender_null_witness :
  CreateMessage_post example_validate_uuid example_to_uuid
    example_serializer_run env0 None
    (mkMessageData "hello" "from nobody" None)
    "AAAAAAAA-0000-4000-8000-000000000001" db_inbox
  = (Ok (mkResponse 201
           (MessageSerializer_data
              (mkMessage (new_uuid env0) None (profile_id p_ada) "hello"
                 "from nobody" false (now env0)))),
     set_messages
       (messages db_inbox
        ++ [mkMessage (new_uuid env0) None (profile_id p_ada) "hello"
              "from nobody" false (now env0)])
       db_inbox).
Proof.
  apply (proj1 (proj2 (CreateMessage_anonymous_sender_null
                         example_validate_uuid example_to_uuid
                         example_serializer_run env0
                         (mkMessageData "hello" "from nobody" None)
                         "AAAAAAAA-0000-4000-8000-000000000001" db_inbox p_ada
                         eq_refl eq_refl))
               (mkMessageData "hello" "from nobody" (Some (profile_id p_ada)))).
  reflexivity.
Defined.

(** ** The inbox *)

Lemma In_insert_newest (x m : Message) (l : list Message) :
  In x (insert_newest m l) <-> x = m \/ In x l.
Proof.
  induction l as [|y l IH]; simpl.
  - intuition.
  - destruct (created y <? created m)%Z; simpl; [intuition|].
    rewrite IH. intuition.
Qed.

Lemma In_newest_first (x : Message) (l : list Message) :
  In x (newest_first l) <-> In x l.
Proof.
  induction l as [|y l IH]; simpl; [reflexivity|].
  rewrite In_insert_newest, IH. intuition.
Qed.

Lemma count_insert_newest (p : Message -> bool) (m : Message) (l : list Message) :
  ORM.count p (insert_newest m l) = ORM.count p (m :: l).
Proof.
  unfold ORM.count. induction l as [|y l IH]; [reflexivity|].
  simpl. destruct (created y <? created m)%Z; [reflexivity|].
  simpl in *. destruct (p y), (p m); simpl in *; lia.
Qed.

Lemma count_newest_first (p : Message -> bool) (l : list Message) :
  ORM.count p (newest_first l) = ORM.count p l.
Proof.
  induction l as [|y l IH]; [reflexivity|].
  simpl. rewrite count_insert_newest. unfold ORM.count in *. simpl.
  destruct (p y); simpl; lia.
Qed.

Lemma count_filter {A : Type} (p q : A -> bool) (l : list A) :
  ORM.count p (filter q l) = ORM.count (fun x => q x && p x) l.
Proof.
  unfold ORM.count. induction l as [|x l IH]; [reflexivity|].
  simpl. destruct (q x); simpl; [destruct (p x); simpl|]; lia.
Qed.

(** The unread count of an inbox, read off the table. *)
Lemma unread_inbox (profile : Profile) (db : DB) :
  unread (inbox profile db)
  = ORM.count (fun m => String.eqb (recipient m) (profile_id profile)
                        && negb (is_read m)) (messages db).
Proof.
  unfold unread, inbox. now rewrite count_newest_first, count_filter.
Qed.

Lemma inbox_In (profile : Profile) (db : DB) (m : Message) :
  In m (inbox profile db)
  <-> In m (messages db) /\ recipient m = profile_id profile.
Proof.
  unfold inbox. rewrite In_newest_first, filter_In.
  now rewrite String.eqb_eq.
Qed.

Lemma count_one_in {A : Type} (p : A -> bool) (l : list A) (x : A) :
  ORM.count p l = 1%nat -> In x l -> p x = true -> filter p l = [x].
Proof.
  unfold ORM.count. intros Hc Hin Hp.
  assert (Hx : In x (filter p l)) by (apply filter_In; auto).
  destruct (filter p l) as [|y [|z r]]; simpl in *; try lia.
  destruct Hx as [-> | []]. reflexivity.
Qed.

Lemma count_ext {A : Type} (p q : A -> bool) (l : list A) :
  (forall x, p x = q x) -> ORM.count p l = ORM.count q l.
Proof. intros H. unfold ORM.count. now rewrite (filter_ext p q H). Qed.

(** ** Viewing a message *)

Lemma save_read_messages (message : Message) (l : list Message) :
  In message l ->
  ORM.save same_msg (mark_read message) l
  = map (fun r => if same_msg (mark_read message) r then mark_read message else r) l.
Proof.
  intros Hin. unfold ORM.save.
  assert (E : existsb (same_msg (mark_read message)) l = true).
  { apply existsb_exists. exists message. split; [assumption|].
    unfold same_msg; cbn. apply String.eqb_refl. }
  now rewrite E.
Qed.

Lemma save_read_all_read (message : Message) (l : list Message) (m : Message) :
  In m (map (fun r => if same_msg (mark_read message) r
                      then mark_read message else r) l) ->
  msg_id m = msg_id message -> is_read m = true.
Proof.
  intros Hin Hid. apply in_map_iff in Hin. destruct Hin as [r [<- Hr]].
  destruct (same_msg (mark_read message) r) eqn:E; [reflexivity|].
  unfold same_msg in E; cbn in E.
  apply String.eqb_neq in E. congruence.
Qed.

Lemma save_read_unread (me : string) (message : Message) (l : list Message) :
  (ORM.count (fun m => String.eqb (recipient m) me && negb (is_read m))
     (map (fun r => if same_msg (mark_read message) r
                    then mark_read message else r) l)
   + ORM.count (fun m => same_msg (mark_read message) m
                         && (String.eqb (recipient m) me && negb (is_read m))) l
   = ORM.count (fun m => String.eqb (recipient m) me && negb (is_read m)) l)%nat.
Proof.
  unfold ORM.count. induction l as [|r l IH]; [reflexivity|].
  cbn [map filter].
  destruct (same_msg (mark_read message) r) eqn:E.
  - cbn [mark_read recipient is_read negb andb].
    rewrite andb_false_r.
    destruct (String.eqb (recipient r) me && negb (is_read r)); simpl; lia.
  - cbn [andb].
    destruct (String.eqb (recipient r) me && negb (is_read r)); simpl; lia.
Qed.

Section ViewMessageFacts.

Variable validate_uuid : string -> bool.
Variable to_uuid : string -> string.

Lemma ViewMessage_get_unread (uid : nat) (id : string) (db : DB)
    (me : Profile) (message : Message) :
  validate_uuid id = true ->
  ORM.get (fun p => Nat.eqb (profile_user p) uid) (profiles db) = ORM.Found me ->
  ORM.get (fun m => String.eqb (msg_id m) (to_uuid id)) (inbox me db)
  = ORM.Found message ->
  is_read message = false ->
  ViewMessage_get validate_uuid to_uuid (Some uid) id db
  = (Ok (mkResponse 200 (MessageSerializer_data (mark_read message))),
     set_messages
       (map (fun r => if same_msg (mark_read message) r
                      then mark_read message else r) (messages db)) db).
Proof.
  intros Hv Hme Hget Hunread.
  unfold ViewMessage_get, IsAuthenticated, bind, ret. cbv beta iota.
  rewrite Hv. cbn [negb]. unfold read, user_profile. rewrite Hme. cbv beta iota.
  rewrite Hget, Hunread. cbn [negb]. unfold Message_save, write. cbv beta iota.
  rewrite save_read_messages; [reflexivity|].
  apply get_found_in in Hget. destruct Hget as [Hin _].
  now apply inbox_In in Hin.
Qed.

Lemma ViewMessage_get_read (uid : nat) (id : string) (db : DB)
    (me : Profile) (message : Message) :
  validate_uuid id = true ->
  ORM.get (fun p => Nat.eqb (profile_user p) uid) (profiles db) = ORM.Found me ->
  ORM.get (fun m => String.eqb (msg_id m) (to_uuid id)) (inbox me db)
  = ORM.Found message ->
  is_read message = true ->
  ViewMessage_get validate_uuid to_uuid (Some uid) id db
  = (Ok (mkResponse 200 (MessageSerializer_data message)), db).
Proof.
  intros Hv Hme Hget Hread.
  unfold ViewMessage_get, IsAuthenticated, bind, ret. cbv beta iota.
  rewrite Hv. cbn [negb]. unfold read, user_profile. rewrite Hme. cbv beta iota.
  now rewrite Hget, Hread.
Qed.

(** A view writes only when it finds the message unread. *)
Lemma viewed_writes (request_user : option nat) (id : string) (db : DB) :
  viewed validate_uuid to_uuid request_user id db = db
  \/ exists uid me message,
       request_user = Some uid
       /\ validate_uuid id = true
       /\ ORM.get (fun p => Nat.eqb (profile_user p) uid) (profiles db)
          = ORM.Found me
       /\ ORM.get (fun m => String.eqb (msg_id m) (to_uuid id)) (inbox me db)
          = ORM.Found message
       /\ is_read message = false.
Proof.
  unfold viewed, ViewMessage_get, IsAuthenticated, bind, ret, raise.
  destruct request_user as [uid|]; [|now left]. cbv beta iota.
  destruct (validate_uuid id) eqn:Hv; [|now left]. cbn [negb].
  unfold read, user_profile.
  destruct (ORM.get _ (profiles db)) as [me| |] eqn:Hme; try now left.
  cbv beta iota.
  destruct (ORM.get _ (inbox me db)) as [message| |] eqn:Hget; try now left.
  destruct (is_read message) eqn:Hread; [now left|].
  right. exists uid, me, message. auto.
Qed.

Lemma viewed_all_read (request_user : option nat) (id : string) (db : DB) :
  all_read (to_uuid id) db -> viewed validate_uuid to_uuid request_user id db = db.
Proof.
  intros Hall.
  destruct (viewed_writes request_user id db)
    as [H | (uid & me & message & _ & _ & _ & Hget & Hunread)]; [assumption|].
  apply get_found_in in Hget. destruct Hget as [Hin Hid].
  apply inbox_In in Hin. apply String.eqb_eq in Hid.
  rewrite (Hall message (proj1 Hin) Hid) in Hunread. discriminate.
Qed.

(** C4: the store after a view is a fixed point of the view: a second
    retrieval of the same message writes nothing.  The first retrieval of
    an unread message of the user's inbox stores it as read, and the
    unread count of the inbox goes down by exactly one; a retrieval of a
    message already read leaves the store, and so the count, as it was. *)
Theorem ViewMessage_idempotent :
  forall (request_user : option nat) (id : string) (db : DB),
    viewed validate_uuid to_uuid request_user id
      (viewed validate_uuid to_uuid request_user id db)
    = viewed validate_uuid to_uuid request_user id db
    /\ (forall uid me message,
           request_user = Some uid ->
           validate_uuid id = true ->
           ORM.get (fun p => Nat.eqb (profile_user p) uid) (profiles db)
           = ORM.Found me ->
           ORM.get (fun m => String.eqb (msg_id m) (to_uuid id)) (inbox me db)
           = ORM.Found message ->
           (is_read message = false ->
            In (mark_read message)
               (messages (viewed validate_uuid to_uuid request_user id db))
            /\ all_read (to_uuid id)
                 (viewed validate_uuid to_uuid request_user id db)
            /\ (unread (inbox me (viewed validate_uuid to_uuid request_user id
                                    db)) + 1
                = unread (inbox me db))%nat)
           /\ (is_read message = true ->
               viewed validate_uuid to_uuid request_user id db = db)).
Proof.
  intros request_user id db.
  assert (Hfirst : forall uid me message,
             request_user = Some uid ->
             validate_uuid id = true ->
             ORM.get (fun p => Nat.eqb (profile_user p) uid) (profiles db)
             = ORM.Found me ->
             ORM.get (fun m => String.eqb (msg_id m) (to_uuid id)) (inbox me db)
             = ORM.Found message ->
             is_read message = false ->
             In (mark_read message)
                (messages (viewed validate_uuid to_uuid request_user id db))
             /\ all_read (to_uuid id)
                  (viewed validate_uuid to_uuid request_user id db)
             /\ (unread (inbox me (viewed validate_uuid to_uuid request_user id
                                     db)) + 1
                 = unread (inbox me db))%nat).
  { intros uid me message -> Hv Hme Hget Hunread.
    unfold viewed.
    rewrite (ViewMessage_get_unread uid id db me message Hv Hme Hget Hunread).
    cbn [snd].
    pose proof (get_found_in _ _ _ Hget) as [Hin Hid].
    apply inbox_In in Hin. destruct Hin as [Hin Hrec].
    apply String.eqb_eq in Hid.
    split; [|split].
    - cbn. apply in_map_iff. exists message. split; [|assumption].
      unfold same_msg; cbn. now rewrite String.eqb_refl.
    - intros m Hm Hmid.
      apply (save_read_all_read message (messages db)); [exact Hm | congruence].
    - rewrite !unread_inbox. cbn [messages set_messages].
      rewrite <- (save_read_unread (profile_id me) message (messages db)).
      f_equal.
      rewrite (count_ext _
                 (fun m => (String.eqb (recipient m) (profile_id me)
                            && String.eqb (msg_id m) (to_uuid id))
                           && negb (is_read m))).
      + rewrite <- count_filter.
        assert (Hone : ORM.count
                         (fun m => String.eqb (recipient m) (profile_id me)
                                   && String.eqb (msg_id m) (to_uuid id))
                         (messages db)
                       = 1%nat).
        { rewrite <- count_filter.
          rewrite <- (count_newest_first _ (filter _ (messages db))).
          unfold ORM.count. fold (inbox me db).
          now rewrite (get_found_inv _ _ _ Hget). }
        rewrite (count_one_in _ _ message Hone Hin).
        * unfold ORM.count. cbn. now rewrite Hunread.
        * now rewrite Hrec, Hid, !String.eqb_refl.
      + intros m. unfold same_msg. cbn [mark_read msg_id].
        rewrite Hid, (String.eqb_sym (to_uuid id) (msg_id m)).
        destruct (String.eqb (msg_id m) (to_uuid id)),
          (String.eqb (recipient m) (profile_id me));
          reflexivity. }
  split.
  - destruct (viewed_writes request_user id db)
      as [H | (uid & me & message & Hu & Hv & Hme & Hget & Hunread)].
    + now rewrite !H.
    + apply viewed_all_read.
      apply (Hfirst uid me message Hu Hv Hme Hget Hunread).
  - intros uid me message Hu Hv Hme Hget. split.
    + now apply (Hfirst uid).
    + intros Hread. subst request_user. unfold viewed.
      now rewrite (ViewMessage_get_read uid id db me message Hv Hme Hget Hread).
Qed.

End ViewMessageFacts.

Lemma ViewMessage_idempotent_witness :
  In (mark_read (letter 3))
     (messages (viewed example_validate_uuid example_to_uuid (Some 1%nat)
                  (msg_id (letter 3)) db_inbox))
  /\ all_read (example_to_uuid (msg_id (letter 3)))
       (viewed example_validate_uuid example_to_uuid (Some 1%nat)
          (msg_id (letter 3)) db_inbox)
  /\ (unread (inbox p_ada (viewed example_validate_uuid example_to_uuid
                             (Some 1%nat) (msg_id (letter 3)) db_inbox)) + 1
      = unread (inbox p_ada db_inbox))%nat.
Proof.
  apply (proj1 (proj2 (ViewMessage_idempotent example_validate_uuid
                         example_to_uuid (Some 1%nat) (msg_id (letter 3))
                         db_inbox)
                      1%nat p_ada (letter 3)
                      eq_refl eq_refl eq_refl eq_refl)).
  reflexivity.
Defined.

(** ** Listing the inbox *)

(** [InboxView.get] answers with the whole inbox, whatever the page. *)
Lemma InboxView_get_whole_inbox (uid page_number : nat) (db : DB) (me : Profile)
    (p : Page) :
  ORM.get (fun q => Nat.eqb (profile_user q) uid) (profiles db) = ORM.Found me ->
  paginate_queryset 10 (inbox me db) page_number = Ok p ->
  exists body,
    InboxView_get (Some uid) page_number db = (Ok body, db)
    /\ ib_results body = inbox me db
    /\ ib_unread_count body = unread (inbox me db)
    /\ ib_per_page body = per_page p
    /\ ib_current_page body = current_page p.
Proof.
  intros Hme Hp.
  unfold InboxView_get, IsAuthenticated, bind, ret, read, check, user_profile.
  cbv beta iota. rewrite Hme. cbv beta iota. rewrite Hp.
  eexists. repeat split.
Qed.

(** C5 fails on [InboxView.get]: with eleven messages in the inbox and
    pages of ten, the answer to page 1 carries all eleven in [results]
    (and all eleven again for page 2), while [per_page] says 10. *)
Theorem InboxView_get_results_not_paged :
  exists body1 body2,
    fst (InboxView_get (Some 1%nat) 1 db_inbox) = Ok body1
    /\ fst (InboxView_get (Some 1%nat) 2 db_inbox) = Ok body2
    /\ length (ib_results body1) = 11%nat
    /\ ib_per_page body1 = 10%nat
    /\ ib_current_page body1 = 1%nat
    /\ ib_last_page body1 = 2%nat
    /\ ib_results body2 = ib_results body1
    /\ ib_current_page body2 = 2%nat.
Proof. do 2 eexists. repeat split. Qed.

Lemma In_firstn {A : Type} (x : A) (n : nat) (l : list A) :
  In x (firstn n l) -> In x l.
Proof.
  revert l; induction n as [|n IH]; intros [|y l]; simpl; try tauto.
  intros [H | H]; [now left | right; now apply IH].
Qed.

Lemma In_skipn {A : Type} (x : A) (k : nat) (l : list A) :
  In x (skipn k l) -> In x l.
Proof.
  revert l; induction k as [|k IH]; intros [|y l]; simpl; try tauto.
  intros H. right. now apply IH.
Qed.

Lemma paginate_items (size : nat) (queryset : list Message) (page_number : nat)
    (p : Page) :
  paginate_queryset size queryset page_number = Ok p ->
  items p = firstn size (skipn ((page_number - 1) * size) queryset)
  /\ per_page p = size /\ current_page p = page_number.
Proof.
  unfold paginate_queryset.
  destruct ((1 <=? page_number)%nat && _); [|discriminate].
  intros H; inversion H; cbn; auto.
Qed.

(** The other listing, [InboxGenericView.list], does answer with the
    page: at most [size] rows, all of the caller's inbox, and the unread
    count of the whole inbox, whatever the page and the search. *)
Lemma InboxGenericView_list_paged (icontains : string -> string -> bool)
    (size uid : nat) (search : list string) (page_number : nat) (db : DB)
    (me : Profile) (p : Page) :
  ORM.get (fun q => Nat.eqb (profile_user q) uid) (profiles db) = ORM.Found me ->
  paginate_queryset size (filter_queryset icontains search (inbox me db))
    page_number = Ok p ->
  InboxGenericView_list icontains (Some size) (Some uid) search page_number db
  = (Ok (mkListBody (items p) (unread (inbox me db)) (Some p)), db)
  /\ (length (items p) <= size)%nat
  /\ (forall m, In m (items p) -> recipient m = profile_id me).
Proof.
  intros Hme Hp. split; [|split].
  - unfold InboxGenericView_list, IsAuthenticated, bind, ret, read, check,
      user_profile, get_queryset.
    cbv beta iota. rewrite Hme. cbv beta iota. now rewrite Hp.
  - apply paginate_items in Hp. destruct Hp as [-> _]. apply firstn_le_length.
  - intros m Hm. apply paginate_items in Hp. destruct Hp as [Hitems _].
    rewrite Hitems in Hm. apply In_firstn, In_skipn in Hm.
    unfold filter_queryset in Hm. apply filter_In in Hm.
    now apply (inbox_In me db m).
Qed.

(** * Further properties of the handlers *)

(** ** Names that pass registration *)

Lemma no_word_rstrip (s : string) : Py.has_word s = false -> Py.rstrip s = "".
Proof.
  induction s as [|c s IH]; [reflexivity|]. simpl.
  destruct (Py.isspace c); simpl; [|discriminate].
  intros H. now rewrite (IH H).
Qed.

Lemma split_from_nil_no_word (s cur : string) :
  Py.split_from cur s = [] -> Py.has_word s = false.
Proof.
  intros H. destruct (Py.has_word s) eqn:E; [|reflexivity].
  pose proof (split_from_word s cur E) as Hlen. rewrite H in Hlen.
  simpl in Hlen. lia.
Qed.

Lemma rstrip_rstrip (s : string) : Py.rstrip (Py.rstrip s) = Py.rstrip s.
Proof.
  induction s as [|c s IH]; [reflexivity|]. cbn [Py.rstrip].
  destruct (Py.isspace c && Py.is_empty (Py.rstrip s)) eqn:E; [reflexivity|].
  cbn [Py.rstrip]. now rewrite IH, E.
Qed.

Lemma lstrip_head (s : string) :
  Py.lstrip s = ""
  \/ exists c r, Py.lstrip s = String c r /\ Py.isspace c = false.
Proof.
  induction s as [|c s IH]; [now left|]. simpl.
  destruct (Py.isspace c) eqn:E; [assumption|]. right. eauto.
Qed.

(** One word, a word being read, and nothing to trim at the end: no
    white space at all. *)
Lemma one_word_no_whitespace (s cur : string) :
  Py.is_empty cur = false ->
  (length (Py.split_from cur s) <= 1)%nat ->
  Py.rstrip s = s ->
  has_whitespace s = false.
Proof.
  revert cur; induction s as [|c s IH]; intros cur Hcur Hlen Hr; [reflexivity|].
  cbn [Py.split_from] in Hlen. cbn [Py.rstrip] in Hr. cbn [has_whitespace].
  destruct (Py.isspace c) eqn:Hc.
  - rewrite Hcur in Hlen. cbn [length] in Hlen.
    assert (Hnil : Py.split_from "" s = [])
      by (destruct (Py.split_from "" s); [reflexivity | simpl in Hlen; lia]).
    apply split_from_nil_no_word, no_word_rstrip in Hnil.
    rewrite Hnil in Hr. discriminate.
  - cbn [andb] in Hr. inversion Hr as [Hr']. rewrite Hr'. cbn [orb].
    apply (IH (String.append cur (String c ""))); auto.
    apply is_empty_append_char.
Qed.

Lemma stripped_one_word (s : string) :
  (length (Py.split (Py.strip s)) <= 1)%nat ->
  has_whitespace (Py.strip s) = false.
Proof.
  unfold Py.strip, Py.split.
  destruct (lstrip_head s) as [-> | (c & r & -> & Hc)]; [reflexivity|].
  cbn [Py.rstrip]. rewrite Hc. cbn [andb].
  cbn [Py.split_from has_whitespace]. rewrite Hc. cbn [orb].
  intros Hlen. apply (one_word_no_whitespace _ (String.append "" (String c "")));
    [reflexivity | assumption | apply rstrip_rstrip].
Qed.

Lemma validate_ok_one_word (attrs : RegisterData) :
  RegisterSerializer_validate attrs = Ok attrs ->
  (length (Py.split (reg_first_name attrs)) <= 1)%nat
  /\ (length (Py.split (reg_last_name attrs)) <= 1)%nat.
Proof.
  unfold RegisterSerializer_validate.
  destruct (1 <? length (Py.split (reg_first_name attrs)))%nat eqn:E1;
    [discriminate|].
  destruct (1 <? length (Py.split (reg_last_name attrs)))%nat eqn:E2;
    [discriminate|].
  apply Nat.ltb_ge in E1, E2. auto.
Qed.

(** X1: whenever [RegisterView.post] answers, it answers 201 and has
    added exactly one user, unverified, whose first and last name hold no
    white-space character at all (the names reach [validate] trimmed, and
    [validate] lets one word through). *)
Theorem Register_stores_names_without_whitespace :
  forall (make_password : string -> string) (env : Env) (req : RegisterData)
         (db db' : DB) (r : Response),
    RegisterView_post make_password env req db = (Ok r, db') ->
    status r = 201%nat
    /\ exists user,
         users db' = users db ++ [user]
         /\ is_email_verified user = false
         /\ first_name user = Py.strip (reg_first_name req)
         /\ last_name user = Py.strip (reg_last_name req)
         /\ has_whitespace (first_name user) = false
         /\ has_whitespace (last_name user) = false.
Proof.
  intros mp env req db db'' r.
  unfold RegisterView_post, RegisterSerializer_is_valid, bind, check,
    RegisterSerializer_to_internal_value, RegisterSerializer_create.
  destruct (existsb _ (users db)); [discriminate|].
  set (attrs := mkRegisterData _ _ _ _).
  destruct (RegisterSerializer_validate attrs) as [a|e] eqn:Hv;
    [|destruct e; discriminate].
  assert (a = attrs) as ->.
  { unfold RegisterSerializer_validate in Hv.
    destruct (1 <? _)%nat; [discriminate|].
    destruct (1 <? _)%nat; [discriminate|]. now inversion Hv. }
  apply validate_ok_one_word in Hv. destruct Hv as [H1 H2].
  cbn. intros H; inversion H; subst. split; [reflexivity|].
  eexists. split; [reflexivity|]. cbn.
  repeat split; try reflexivity; now apply stripped_one_word.
Qed.

Lemma Register_stores_names_without_whitespace_witness :
  status (mkResponse 201 [("message", JStr "OTP sent for email verification.");
                          ("email", JStr "jane@x.com")]) = 201%nat
  /\ exists user,
       users (snd (RegisterView_post example_hash env0 jane empty_db))
       = users empty_db ++ [user]
       /\ is_email_verified user = false
       /\ first_name user = Py.strip (reg_first_name jane)
       /\ last_name user = Py.strip (reg_last_name jane)
       /\ has_whitespace (first_name user) = false
       /\ has_whitespace (last_name user) = false.
Proof.
  apply (Register_stores_names_without_whitespace example_hash env0 jane
           empty_db _ _ eq_refl).
Defined.

(** ** Verifying a code, and what follows *)

Lemma save_verified_users (user : User) (us : list User) :
  In user us ->
  ORM.save (fun a b => Nat.eqb (user_id a) (user_id b)) (verified user) us
  = map (fun r => if Nat.eqb (user_id user) (user_id r) then verified user else r)
        us.
Proof.
  intros Hin. unfold ORM.save.
  assert (E : existsb (fun b => Nat.eqb (user_id (verified user)) (user_id b)) us
              = true).
  { apply existsb_exists. exists user. split; [assumption|].
    cbn. apply Nat.eqb_refl. }
  rewrite E. reflexivity.
Qed.

(** What a successful verification leaves. *)
Lemma VerifyOtpView_post_success (is_valid : Otp -> Z -> bool) (env : Env)
    (req : VerifyOtpData) (db : DB) (user : User) (otp_record : Otp) :
  User_by_email (CharField (vo_email req)) db = ORM.Found user ->
  Otp_get user (vo_otp req) db = ORM.Found otp_record ->
  is_valid otp_record (now env) = true ->
  is_email_verified user = false ->
  VerifyOtpView_post is_valid env req db
  = (Ok (mkResponse 200 [("message", JStr "Email verified successfully.")]),
     mkDB (map (fun r => if Nat.eqb (user_id user) (user_id r)
                         then verified user else r) (users db))
          (ORM.delete (fun o => Nat.eqb (otp_user o) (user_id user)) (otps db))
          (profiles db) (messages db)
          (outbox db ++ [mkMail "welcome" (user_id user)])).
Proof.
  intros Hu Ho Hv Hver.
  unfold VerifyOtpView_post, bind.
  rewrite (VerifyOtp_is_valid_ok is_valid env req db user otp_record Hu Ho Hv).
  cbn [vo_email]. rewrite (User_get_found _ _ _ Hu), Hver.
  unfold User_save, delete_otps, SendEmail_welcome, write, ret.
  cbv beta iota. unfold set_users, set_otps, send_mail. cbn.
  rewrite save_verified_users; [reflexivity|].
  now apply User_by_email_found in Hu.
Qed.

(** X2: a request with the user's matching, still valid code, for a user
    not yet verified, is answered 200 "Email verified successfully."; the
    user's row now has the flag set and every other field as before, the
    other users' rows are untouched, all codes of the user are deleted and
    nobody else's, and one welcome mail is handed over. *)
Theorem VerifyOtp_marks_user_verified :
  forall (is_valid : Otp -> Z -> bool) (env : Env) (req : VerifyOtpData)
         (db : DB) (user : User) (otp_record : Otp),
    User_by_email (CharField (vo_email req)) db = ORM.Found user ->
    Otp_get user (vo_otp req) db = ORM.Found otp_record ->
    is_valid otp_record (now env) = true ->
    is_email_verified user = false ->
    exists db' user',
      VerifyOtpView_post is_valid env req db
      = (Ok (mkResponse 200 [("message", JStr "Email verified successfully.")]),
         db')
      /\ In user' (users db')
      /\ is_email_verified user' = true
      /\ (user_id user', email user', first_name user', last_name user',
          password user')
         = (user_id user, email user, first_name user, last_name user,
            password user)
      /\ map user_id (users db') = map user_id (users db)
      /\ (forall u, In u (users db) -> user_id u <> user_id user ->
                    In u (users db'))
      /\ otps_of (user_id user) db' = []
      /\ (forall uid, uid <> user_id user -> otps_of uid db' = otps_of uid db)
      /\ outbox db' = outbox db ++ [mkMail "welcome" (user_id user)]
      /\ messages db' = messages db.
Proof.
  intros is_valid env req db user otp_record Hu Ho Hv Hver.
  rewrite (VerifyOtpView_post_success is_valid env req db user otp_record
             Hu Ho Hv Hver).
  pose proof (User_by_email_found _ _ _ Hu) as [Hin _].
  exists (mkDB (map (fun r => if Nat.eqb (user_id user) (user_id r)
                              then verified user else r) (users db))
               (ORM.delete (fun o => Nat.eqb (otp_user o) (user_id user))
                           (otps db))
               (profiles db) (messages db)
               (outbox db ++ [mkMail "welcome" (user_id user)])),
         (verified user).
  split; [reflexivity|]. cbn [users otps outbox messages].
  split; [|split; [reflexivity|split; [reflexivity|split; [|split; [|split;
    [|split; [|split; reflexivity]]]]]]].
  - apply in_map_iff. exists user. now rewrite Nat.eqb_refl.
  - rewrite map_map. apply map_ext. intros r.
    destruct (Nat.eqb (user_id user) (user_id r)) eqn:E; [|reflexivity].
    now apply Nat.eqb_eq in E.
  - intros u Hu' Hne. apply in_map_iff. exists u. split; [|assumption].
    destruct (Nat.eqb (user_id user) (user_id u)) eqn:E; [|reflexivity].
    apply Nat.eqb_eq in E. congruence.
  - unfold otps_of. cbn [otps]. apply filter_delete_same.
  - intros uid Hne. unfold otps_of. cbn [otps]. now apply filter_delete_other.
Qed.

Lemma VerifyOtp_marks_user_verified_witness :
  exists db' user',
    VerifyOtpView_post example_is_valid (mkEnv 100 0 "")
      (mkVerifyOtpData "ada@x.com" 111111) db_users
    = (Ok (mkResponse 200 [("message", JStr "Email verified successfully.")]),
       db')
    /\ In user' (users db')
    /\ is_email_verified user' = true
    /\ (user_id user', email user', first_name user', last_name user',
        password user')
       = (user_id ada, email ada, first_name ada, last_name ada, password ada)
    /\ map user_id (users db') = map user_id (users db_users)
    /\ (forall u, In u (users db_users) -> user_id u <> user_id ada ->
                  In u (users db'))
    /\ otps_of (user_id ada) db' = []
    /\ (forall uid, uid <> user_id ada -> otps_of uid db' = otps_of uid db_users)
    /\ outbox db' = outbox db_users ++ [mkMail "welcome" (user_id ada)]
    /\ messages db' = messages db_users.
Proof.
  apply (VerifyOtp_marks_user_verified example_is_valid (mkEnv 100 0 "")
           (mkVerifyOtpData "ada@x.com" 111111) db_users ada (mkOtp 1 111111 0));
    reflexivity.
Defined.

Lemma same_key_same_row {A K : Type} (key : A -> K) (l : list A) (a b : A) :
  NoDup (map key l) -> In a l -> In b l -> key a = key b -> a = b.
Proof.
  induction l as [|x l IH]; simpl; [tauto|].
  intros Hnd Ha Hb Hk. inversion Hnd as [|k ks Hnotin Hnd']; subst.
  destruct Ha as [-> | Ha], Hb as [-> | Hb]; auto.
  - exfalso. apply Hnotin. rewrite Hk. now apply in_map.
  - exfalso. apply Hnotin. rewrite <- Hk. now apply in_map.
Qed.

Lemma filter_map_same {A : Type} (p : A -> bool) (f : A -> A) (l : list A) :
  (forall x, In x l -> p (f x) = p x) ->
  filter p (map f l) = map f (filter p l).
Proof.
  induction l as [|x l IH]; intros H; [reflexivity|]. simpl.
  rewrite (H x (or_introl eq_refl)).
  destruct (p x); simpl; rewrite IH; auto; intros y Hy; apply H; now right.
Qed.

(** After the verification the user is found under the same email,
    verified. *)
Lemma User_by_email_verified (e : string) (db : DB) (user : User) :
  NoDup (map user_id (users db)) ->
  User_by_email e db = ORM.Found user ->
  ORM.get (fun u => String.eqb (email u) e)
          (map (fun r => if Nat.eqb (user_id user) (user_id r)
                         then verified user else r) (users db))
  = ORM.Found (verified user).
Proof.
  intros Hnd Hu. pose proof (User_by_email_found _ _ _ Hu) as [Hin He].
  unfold ORM.get. rewrite filter_map_same.
  - unfold User_by_email in Hu. rewrite (get_found_inv _ _ _ Hu). cbn.
    now rewrite Nat.eqb_refl.
  - intros r Hr. destruct (Nat.eqb (user_id user) (user_id r)) eqn:E;
      [|reflexivity].
    apply Nat.eqb_eq in E.
    now rewrite (same_key_same_row user_id (users db) user r Hnd Hin Hr E).
Qed.

(** X3: verification opens the login: in a store whose user keys are
    distinct, after a successful [VerifyOtpView.post] a login with the
    same email is no longer answered 401 but handed to the token pair
    view, whatever the password; before it, the same login is answered
    401. *)
Theorem Login_after_VerifyOtp :
  forall (is_valid : Otp -> Z -> bool) (env : Env) (req : VerifyOtpData)
         (db : DB) (user : User) (otp_record : Otp) (pw : option string),
    NoDup (map user_id (users db)) ->
    User_by_email (CharField (vo_email req)) db = ORM.Found user ->
    Otp_get user (vo_otp req) db = ORM.Found otp_record ->
    is_valid otp_record (now env) = true ->
    is_email_verified user = false ->
    (exists r, fst (LoginView_post
                      (mkLoginData (Some (CharField (vo_email req))) pw) db)
               = Ok (Reply r) /\ status r = 401%nat)
    /\ fst (LoginView_post (mkLoginData (Some (CharField (vo_email req))) pw)
              (snd (VerifyOtpView_post is_valid env req db)))
       = Ok (Super_post (mkLoginData (Some (CharField (vo_email req))) pw)).
Proof.
  intros is_valid env req db user otp_record pw Hnd Hu Ho Hv Hver. split.
  - unfold LoginView_post. cbn [login_email]. rewrite Hu, Hver.
    eexists. split; reflexivity.
  - rewrite (VerifyOtpView_post_success is_valid env req db user otp_record
               Hu Ho Hv Hver).
    cbn [snd]. unfold LoginView_post, User_by_email. cbn [login_email users].
    now rewrite (User_by_email_verified _ db user Hnd Hu).
Qed.

Lemma Login_after_VerifyOtp_witness :
  (exists r, fst (LoginView_post
                    (mkLoginData (Some (CharField "ada@x.com")) (Some "pw"))
                    db_users)
             = Ok (Reply r) /\ status r = 401%nat)
  /\ fst (LoginView_post (mkLoginData (Some (CharField "ada@x.com")) (Some "pw"))
            (snd (VerifyOtpView_post example_is_valid (mkEnv 100 0 "")
                    (mkVerifyOtpData "ada@x.com" 111111) db_users)))
     = Ok (Super_post (mkLoginData (Some (CharField "ada@x.com")) (Some "pw"))).
Proof.
  apply (Login_after_VerifyOtp example_is_valid (mkEnv 100 0 "")
           (mkVerifyOtpData "ada@x.com" 111111) db_users ada (mkOtp 1 111111 0)
           (Some "pw")).
  - repeat constructor; simpl; intuition discriminate.
  - reflexivity.
  - reflexivity.
  - reflexivity.
  - reflexivity.
Defined.

Lemma get_none {A : Type} (cond : A -> bool) (table : list A) :
  (forall row, In row table -> cond row = false) ->
  ORM.get cond table = ORM.DoesNotExist.
Proof.
  intros H. unfold ORM.get.
  destruct (filter cond table) as [|x l] eqn:E; [reflexivity|].
  assert (Hx : In x (filter cond table)) by (rewrite E; now left).
  apply filter_In in Hx. destruct Hx as [Hin Hc].
  rewrite (H x Hin) in Hc. discriminate.
Qed.

(** X4: a code counts only for the user it was issued to: when none of
    the user's own codes is the one supplied, the request fails with
    "Invalid OTP provided." and nothing is written, also when the code is
    another user's and still valid. *)
Theorem VerifyOtp_code_of_another_user :
  forall (is_valid : Otp -> Z -> bool) (env : Env) (req : VerifyOtpData)
         (db : DB) (user : User),
    User_by_email (CharField (vo_email req)) db = ORM.Found user ->
    (forall o, In o (otps db) -> otp_user o = user_id user ->
               otp o <> vo_otp req) ->
    VerifyOtpView_post is_valid env req db = (Raise Invalid_otp, db).
Proof.
  intros is_valid env req db user Hu Hnone.
  unfold VerifyOtpView_post, VerifyOtpSerializer_is_valid, bind, check,
    VerifyOtpSerializer_validate.
  cbn [vo_email vo_otp]. rewrite Hu. unfold Otp_get.
  rewrite get_none; [reflexivity|].
  intros o Ho. destruct (Nat.eqb (otp_user o) (user_id user)) eqn:E;
    [|reflexivity].
  apply Nat.eqb_eq in E. cbn [andb]. apply Z.eqb_neq. now apply Hnone.
Qed.

Lemma VerifyOtp_code_of_another_user_witness :
  VerifyOtpView_post example_is_valid (mkEnv 100 0 "")
    (mkVerifyOtpData "ada@x.com" 222222) db_users
  = (Raise Invalid_otp, db_users).
Proof.
  apply (VerifyOtp_code_of_another_user example_is_valid (mkEnv 100 0 "")
           (mkVerifyOtpData "ada@x.com" 222222) db_users ada).
  - reflexivity.
  - simpl. intros o [<- | [<- | []]]; simpl; intros; discriminate.
Defined.

(** ** Requests that fail write nothing *)

Lemma RegisterView_post_raises (make_password : string -> string) (env : Env)
    (req : RegisterData) (db db' : DB) (e : Exn) :
  RegisterView_post make_password env req db = (Raise e, db') -> db' = db.
Proof.
  unfold RegisterView_post, RegisterSerializer_is_valid, bind, check,
    RegisterSerializer_create, create_user, SendEmail_send_otp, write, ret.
  destruct (RegisterSerializer_to_internal_value req db) as [attrs|x];
    [|now intros H; inversion H].
  destruct (run_validate (RegisterSerializer_validate attrs)) as [a|x];
    [discriminate | now intros H; inversion H].
Qed.

Lemma SendOtpView_post_raises (run_validators : string -> list string)
    (env : Env) (e : string) (db db' : DB) (x : Exn) :
  SendOtpView_post run_validators env e db = (Raise x, db') -> db' = db.
Proof.
  unfold SendOtpView_post, SendOtpSerializer_is_valid, bind, check.
  destruct (run_validate_field _ _) as [mail|y]; [|now intros H; inversion H].
  destruct (User_by_email mail db); try discriminate.
  now intros H; inversion H.
Qed.

Lemma VerifyOtpView_post_raises (is_valid : Otp -> Z -> bool) (env : Env)
    (req : VerifyOtpData) (db db' : DB) (x : Exn) :
  VerifyOtpView_post is_valid env req db = (Raise x, db') -> db' = db.
Proof.
  unfold VerifyOtpView_post, VerifyOtpSerializer_is_valid, bind, check, User_get.
  destruct (run_validate _) as [attrs|y]; [|now intros H; inversion H].
  destruct (User_by_email (vo_email attrs) db) as [user| |];
    try (now intros H; inversion H).
  destruct (is_email_verified user); discriminate.
Qed.

Lemma PasswordResetRequestView_post_raises (env : Env)
    (request_user : option nat) (e : string) (db db' : DB) (x : Exn) :
  PasswordResetRequestView_post env request_user e db = (Raise x, db') ->
  db' = db.
Proof.
  unfold PasswordResetRequestView_post, IsUnauthenticated,
    RequestPasswordResetOtpSerializer_is_valid, bind, check, User_get.
  destruct request_user; [now intros H; inversion H|]. cbn.
  destruct (run_validate_field _ _) as [mail|y]; [|now intros H; inversion H].
  destruct (User_by_email mail db); now intros H; inversion H.
Qed.

Lemma fails_cleanly_intro {A : Type} (m : M A) :
  (forall db db' x, m db = (Raise x, db') -> db' = db) -> fails_cleanly m.
Proof.
  intros H db d ->. destruct (m db) as [[a|x] db'] eqn:E; [exact I|].
  now apply (H db db' x).
Qed.

(** X5: the account handlers of views.py that check before they write
    ([RegisterView], [SendOtpView], [VerifyOtpView],
    [PasswordResetRequestView]) never leave a partial write: when one of
    them raises, the store is exactly as it was; and [LoginView] leaves
    the store as it was in every case. *)
Theorem account_requests_fail_cleanly :
  forall (make_password : string -> string) (is_valid : Otp -> Z -> bool)
         (run_validators : string -> list string) (env : Env),
    (forall req, fails_cleanly (RegisterView_post make_password env req))
    /\ (forall e, fails_cleanly (SendOtpView_post run_validators env e))
    /\ (forall req, fails_cleanly (VerifyOtpView_post is_valid env req))
    /\ (forall u e, fails_cleanly (PasswordResetRequestView_post env u e))
    /\ (forall req db, snd (LoginView_post req db) = db).
Proof.
  intros mp iv ev env. repeat split.
  - intros req. apply fails_cleanly_intro. intros db db' x.
    apply RegisterView_post_raises.
  - intros e. apply fails_cleanly_intro. intros db db' x.
    apply SendOtpView_post_raises.
  - intros req. apply fails_cleanly_intro. intros db db' x.
    apply VerifyOtpView_post_raises.
  - intros u e. apply fails_cleanly_intro. intros db db' x.
    apply PasswordResetRequestView_post_raises.
  - intros req db. unfold LoginView_post.
    destruct (login_email req) as [e|]; [|reflexivity].
    destruct (User_by_email e db) as [user| |]; try reflexivity.
    now destruct (is_email_verified user).
Qed.

(** ** The life of a code *)

(** What a successful [SendOtpView.post] leaves. *)
Lemma SendOtpView_post_success (run_validators : string -> list string)
    (env : Env) (e : string) (db : DB) (user : User) :
  EmailField run_validators e = Ok (CharField e) ->
  User_by_email (CharField e) db = ORM.Found user ->
  SendOtpView_post run_validators env e db
  = (Ok (mkResponse 200 [("message", JStr "OTP sent successfully.")]),
     mkDB (users db)
          (ORM.delete (fun o => Nat.eqb (otp_user o) (user_id user)) (otps db)
           ++ [mkOtp (user_id user) (random_otp env) (now env)])
          (profiles db) (messages db)
          (outbox db ++ [mkMail "otp" (user_id user)])).
Proof.
  intros Hok Hu.
  unfold SendOtpView_post, SendOtpSerializer_is_valid, bind, check,
    SendOtpSerializer_validate_email.
  rewrite Hok, Hu. cbn. rewrite Hu. reflexivity.
Qed.

Lemma SendOtpView_post_ok (run_validators : string -> list string) (env : Env)
    (e : string) (db db' : DB) (r : Response) :
  SendOtpView_post run_validators env e db = (Ok r, db') ->
  EmailField run_validators e = Ok (CharField e)
  /\ exists user, User_by_email (CharField e) db = ORM.Found user.
Proof.
  destruct (EmailField_cases run_validators e) as [Hok | [d Hd]];
    unfold SendOtpView_post, SendOtpSerializer_is_valid, bind, check,
      SendOtpSerializer_validate_email.
  - rewrite Hok.
    destruct (User_by_email (CharField e) db) as [user| |] eqn:Hu; cbn;
      try discriminate.
    eauto.
  - rewrite Hd. discriminate.
Qed.

(** X6: when [SendOtpView.post] answers, the answer is 200 "OTP sent
    successfully.", the email has passed the field's checks, exactly one
    user has the (trimmed) email, one mail to that user is handed over,
    and the tables of users, profiles and messages and the codes of every
    other user are as they were. *)
Theorem SendOtp_touches_one_user :
  forall (run_validators : string -> list string) (env : Env) (e : string)
         (db db' : DB) (r : Response),
    SendOtpView_post run_validators env e db = (Ok r, db') ->
    r = mkResponse 200 [("message", JStr "OTP sent successfully.")]
    /\ EmailField run_validators e = Ok (CharField e)
    /\ exists user,
         User_by_email (CharField e) db = ORM.Found user
         /\ users db' = users db
         /\ profiles db' = profiles db
         /\ messages db' = messages db
         /\ outbox db' = outbox db ++ [mkMail "otp" (user_id user)]
         /\ (forall uid, uid <> user_id user ->
                         otps_of uid db' = otps_of uid db).
Proof.
  intros ev env e db db' r H.
  destruct (SendOtpView_post_ok ev env e db db' r H) as [Hok [user Hu]].
  rewrite (SendOtpView_post_success ev env e db user Hok Hu) in H.
  inversion H; subst. split; [reflexivity|]. split; [assumption|].
  exists user. cbn. repeat split; try assumption.
  intros uid Hne. unfold otps_of. cbn [otps]. rewrite filter_app.
  rewrite filter_delete_other by assumption. cbn.
  destruct (Nat.eqb (user_id user) uid) eqn:E; [|apply app_nil_r].
  apply Nat.eqb_eq in E. congruence.
Qed.

Lemma SendOtp_touches_one_user_witness :
  mkResponse 200 [("message", JStr "OTP sent successfully.")]
  = mkResponse 200 [("message", JStr "OTP sent successfully.")]
  /\ EmailField example_run_validators "ada@x.com" = Ok (CharField "ada@x.com")
  /\ exists user,
       User_by_email (CharField "ada@x.com") db_users = ORM.Found user
       /\ users (snd (SendOtpView_post example_run_validators env0 "ada@x.com"
                        db_users))
          = users db_users
       /\ profiles (snd (SendOtpView_post example_run_validators env0
                           "ada@x.com" db_users))
          = profiles db_users
       /\ messages (snd (SendOtpView_post example_run_validators env0
                           "ada@x.com" db_users))
          = messages db_users
       /\ outbox (snd (SendOtpView_post example_run_validators env0 "ada@x.com"
                         db_users))
          = outbox db_users ++ [mkMail "otp" (user_id user)]
       /\ (forall uid, uid <> user_id user ->
                       otps_of uid (snd (SendOtpView_post example_run_validators
                                           env0 "ada@x.com" db_users))
                       = otps_of uid db_users).
Proof.
  apply (SendOtp_touches_one_user example_run_validators env0 "ada@x.com"
           db_users _ _ eq_refl).
Defined.

Lemma filter_delete_same_and (uid : nat) (p : Otp -> bool) (os : list Otp) :
  filter (fun o => Nat.eqb (otp_user o) uid && p o)
         (ORM.delete (fun o => Nat.eqb (otp_user o) uid) os) = [].
Proof.
  unfold ORM.delete. induction os as [|o os IH]; [reflexivity|]. simpl.
  destruct (Nat.eqb (otp_user o) uid) eqn:E; simpl; [assumption|].
  now rewrite E.
Qed.

(** The codes of the user after [SendOtpView.post]: the new one alone. *)
Lemma Otp_get_after_send (env : Env) (user : User) (code : Z) (db : DB)
    (us : list User) (ps : list Profile) (ms : list Message) (ob : list Mail) :
  Otp_get user code
    (mkDB us
       (ORM.delete (fun o => Nat.eqb (otp_user o) (user_id user)) (otps db)
        ++ [mkOtp (user_id user) (random_otp env) (now env)]) ps ms ob)
  = if Z.eqb (random_otp env) code
    then ORM.Found (mkOtp (user_id user) (random_otp env) (now env))
    else ORM.DoesNotExist.
Proof.
  unfold Otp_get, ORM.get. cbn [otps].
  rewrite filter_app, filter_delete_same_and. cbn.
  rewrite Nat.eqb_refl. cbn. now destruct (Z.eqb (random_otp env) code).
Qed.

(** X7: a code sent is the one, and the only one, that verifies: after
    [SendOtpView.post] has answered (the email passes the field's checks
    and is that of a user) for a user not yet verified,
    [VerifyOtpView.post] with the code just issued, within its validity
    window, answers 200 "Email verified successfully."; with any other
    code, also one that was valid before the new one was sent, it fails
    with "Invalid OTP provided." and writes nothing. *)
Theorem SendOtp_then_VerifyOtp :
  forall (is_valid : Otp -> Z -> bool) (run_validators : string -> list string)
         (env env' : Env) (e : string) (db : DB) (user : User),
    EmailField run_validators e = Ok (CharField e) ->
    User_by_email (CharField e) db = ORM.Found user ->
    is_email_verified user = false ->
    is_valid (mkOtp (user_id user) (random_otp env) (now env)) (now env') = true ->
    fst (VerifyOtpView_post is_valid env' (mkVerifyOtpData e (random_otp env))
           (snd (SendOtpView_post run_validators env e db)))
    = Ok (mkResponse 200 [("message", JStr "Email verified successfully.")])
    /\ (forall code,
           code <> random_otp env ->
           VerifyOtpView_post is_valid env' (mkVerifyOtpData e code)
             (snd (SendOtpView_post run_validators env e db))
           = (Raise Invalid_otp,
              snd (SendOtpView_post run_validators env e db))).
Proof.
  intros is_valid ev env env' e db user Hok Hu Hver Hvalid.
  rewrite (SendOtpView_post_success ev env e db user Hok Hu). cbn [snd].
  set (db1 := mkDB _ _ _ _ _).
  assert (Hu1 : User_by_email (CharField e) db1 = ORM.Found user) by exact Hu.
  split.
  - rewrite (VerifyOtpView_post_success is_valid env'
               (mkVerifyOtpData e (random_otp env)) db1 user
               (mkOtp (user_id user) (random_otp env) (now env)));
      try assumption; [reflexivity|].
    cbn [vo_otp]. unfold db1. rewrite Otp_get_after_send.
    now rewrite Z.eqb_refl.
  - intros code Hne.
    unfold VerifyOtpView_post, VerifyOtpSerializer_is_valid, bind, check,
      VerifyOtpSerializer_validate.
    cbn [vo_email vo_otp]. rewrite Hu1. unfold db1 at 1.
    rewrite Otp_get_after_send.
    destruct (Z.eqb (random_otp env) code) eqn:E; [|reflexivity].
    apply Z.eqb_eq in E. congruence.
Qed.

Lemma SendOtp_then_VerifyOtp_witness :
  fst (VerifyOtpView_post example_is_valid (mkEnv 1100 0 "")
         (mkVerifyOtpData "ada@x.com" (random_otp env0))
         (snd (SendOtpView_post example_run_validators env0 "ada@x.com"
                 db_users)))
  = Ok (mkResponse 200 [("message", JStr "Email verified successfully.")])
  /\ (forall code,
         code <> random_otp env0 ->
         VerifyOtpView_post example_is_valid (mkEnv 1100 0 "")
           (mkVerifyOtpData "ada@x.com" code)
           (snd (SendOtpView_post example_run_validators env0 "ada@x.com"
                   db_users))
         = (Raise Invalid_otp,
            snd (SendOtpView_post example_run_validators env0 "ada@x.com"
                   db_users))).
Proof.
  apply (SendOtp_then_VerifyOtp example_is_valid example_run_validators env0
           (mkEnv 1100 0 "") "ada@x.com" db_users ada); reflexivity.
Defined.

(** X8: a code verifies once: in a store whose user keys are distinct,
    after a successful [VerifyOtpView.post] the same request, at any
    later time, fails with "Invalid OTP provided." and writes nothing
    (the code was deleted with the verification). *)
Theorem VerifyOtp_code_used_once :
  forall (is_valid : Otp -> Z -> bool) (env env' : Env) (req : VerifyOtpData)
         (db : DB) (user : User) (otp_record : Otp),
    NoDup (map user_id (users db)) ->
    User_by_email (CharField (vo_email req)) db = ORM.Found user ->
    Otp_get user (vo_otp req) db = ORM.Found otp_record ->
    is_valid otp_record (now env) = true ->
    is_email_verified user = false ->
    VerifyOtpView_post is_valid env' req
      (snd (VerifyOtpView_post is_valid env req db))
    = (Raise Invalid_otp, snd (VerifyOtpView_post is_valid env req db)).
Proof.
  intros is_valid env env' req db user otp_record Hnd Hu Ho Hv Hver.
  rewrite (VerifyOtpView_post_success is_valid env req db user otp_record
             Hu Ho Hv Hver).
  cbn [snd].
  unfold VerifyOtpView_post, VerifyOtpSerializer_is_valid, bind, check,
    VerifyOtpSerializer_validate.
  cbn [vo_email vo_otp]. unfold User_by_email at 1. cbn [users].
  rewrite (User_by_email_verified _ db user Hnd Hu).
  unfold Otp_get, ORM.get. cbn [otps verified user_id].
  now rewrite filter_delete_same_and.
Qed.

Lemma VerifyOtp_code_used_once_witness :
  VerifyOtpView_post example_is_valid (mkEnv 200 0 "")
    (mkVerifyOtpData "ada@x.com" 111111)
    (snd (VerifyOtpView_post example_is_valid (mkEnv 100 0 "")
            (mkVerifyOtpData "ada@x.com" 111111) db_users))
  = (Raise Invalid_otp,
     snd (VerifyOtpView_post example_is_valid (mkEnv 100 0 "")
            (mkVerifyOtpData "ada@x.com" 111111) db_users)).
Proof.
  apply (VerifyOtp_code_used_once example_is_valid (mkEnv 100 0 "")
           (mkEnv 200 0 "") (mkVerifyOtpData "ada@x.com" 111111) db_users ada
           (mkOtp 1 111111 0)).
  - repeat constructor; simpl; intuition discriminate.
  - reflexivity.
  - reflexivity.
  - reflexivity.
  - reflexivity.
Defined.

(** ** Messages that are created *)

Lemma length_newest_first (l : list Message) :
  length (newest_first l) = length l.
Proof.
  pose proof (count_newest_first (fun _ => true) l) as H.
  unfold ORM.count in H. now rewrite !filter_true in H.
Qed.

Lemma count_app {A : Type} (p : A -> bool) (l1 l2 : list A) :
  ORM.count p (l1 ++ l2) = (ORM.count p l1 + ORM.count p l2)%nat.
Proof. unfold ORM.count. now rewrite filter_app, length_app. Qed.

Lemma inbox_size (profile : Profile) (db : DB) :
  length (inbox profile db)
  = ORM.count (fun m => String.eqb (recipient m) (profile_id profile))
              (messages db).
Proof. unfold inbox. now rewrite length_newest_first. Qed.

Section CreatedMessages.

Variable validate_uuid : string -> bool.
Variable to_uuid : string -> string.
Variable MessageSerializer_run :
  DB -> MessageData -> list (string * Json) + MessageData.

(** What [CreateMessage.post] does, case by case. *)
Lemma CreateMessage_post_cases (env : Env) (request_user : option nat)
    (req : MessageData) (pid : string) (db : DB) :
  (exists target from validated,
      validate_uuid pid = true
      /\ ORM.get (fun p => String.eqb (profile_id p) (to_uuid pid)) (profiles db)
         = ORM.Found target
      /\ match request_user with
         | Some uid =>
             exists me,
               ORM.get (fun p => Nat.eqb (profile_user p) uid) (profiles db)
               = ORM.Found me
               /\ from = Some (profile_id me)
               /\ profile_id me <> profile_id target
         | None => from = None
         end
      /\ MessageSerializer_run db
           (mkMessageData (md_subject req) (md_body req)
              (Some (profile_id target)))
         = inr validated
      /\ CreateMessage_post validate_uuid to_uuid MessageSerializer_run env
           request_user req pid db
         = (Ok (mkResponse 201
                  (MessageSerializer_data
                     (mkMessage (new_uuid env) from (profile_id target)
                        (md_subject validated) (md_body validated) false
                        (now env)))),
            set_messages
              (messages db
               ++ [mkMessage (new_uuid env) from (profile_id target)
                     (md_subject validated) (md_body validated) false (now env)])
              db))
  \/ (exists x,
         CreateMessage_post validate_uuid to_uuid MessageSerializer_run env
           request_user req pid db
         = (Raise x, db)).
Proof.
  unfold CreateMessage_post, bind, read, ret, raise, user_profile,
    MessageSerializer_save.
  destruct (validate_uuid pid) eqn:Hv; cbn [negb]; [|right; eauto].
  destruct (ORM.get _ (profiles db)) as [target| |] eqn:Ht; cbv beta iota;
    try (right; eauto; fail).
  destruct request_user as [uid|]; cbv beta iota.
  - destruct (ORM.get (fun p => Nat.eqb (profile_user p) uid) (profiles db))
      as [me| |] eqn:Hme; cbv beta iota; try (right; eauto; fail).
    destruct (String.eqb (profile_id me) (profile_id target)) eqn:E;
      [right; eauto|].
    destruct (MessageSerializer_run db _) as [errors|validated] eqn:Hrun;
      [right; eauto|].
    left. exists target, (Some (profile_id me)), validated.
    repeat split; try assumption.
    exists me. repeat split. now apply String.eqb_neq.
  - destruct (MessageSerializer_run db _) as [errors|validated] eqn:Hrun;
      [right; eauto|].
    left. exists target, None, validated. repeat split; assumption.
Qed.

(** X9: [CreateMessage.post] either answers 201 and has appended exactly
    one message, unread, addressed to the profile of the URL, which
    exists, with the key and time it was given, or it raises and the
    store is as it was; no other table is written. *)
Theorem CreateMessage_appends_one_or_nothing :
  forall (env : Env) (request_user : option nat) (req : MessageData)
         (pid : string) (db : DB),
    (exists m target,
        CreateMessage_post validate_uuid to_uuid MessageSerializer_run env
          request_user req pid db
        = (Ok (mkResponse 201 (MessageSerializer_data m)),
           set_messages (messages db ++ [m]) db)
        /\ In target (profiles db)
        /\ profile_id target = to_uuid pid
        /\ recipient m = to_uuid pid
        /\ is_read m = false
        /\ msg_id m = new_uuid env
        /\ created m = now env)
    \/ (exists x,
           CreateMessage_post validate_uuid to_uuid MessageSerializer_run env
             request_user req pid db
           = (Raise x, db)).
Proof.
  intros env request_user req pid db.
  destruct (CreateMessage_post_cases env request_user req pid db)
    as [(target & from & validated & Hv & Ht & _ & _ & E) | H]; [left | now right].
  apply get_found_in in Ht. destruct Ht as [Hin Hid].
  apply String.eqb_eq in Hid.
  eexists _, target. split; [exact E|]. cbn. repeat split; auto.
Qed.

(** X10: a logged-in caller who writes to another profile is stored as
    the sender of the message, with the subject and body the serializer
    validated. *)
Theorem CreateMessage_sender_is_caller :
  forall (env : Env) (uid : nat) (req validated : MessageData) (pid : string)
         (db : DB) (target me : Profile),
    validate_uuid pid = true ->
    ORM.get (fun p => String.eqb (profile_id p) (to_uuid pid)) (profiles db)
    = ORM.Found target ->
    ORM.get (fun p => Nat.eqb (profile_user p) uid) (profiles db)
    = ORM.Found me ->
    profile_id me <> profile_id target ->
    MessageSerializer_run db
      (mkMessageData (md_subject req) (md_body req) (Some (profile_id target)))
    = inr validated ->
    exists m,
      messages (snd (CreateMessage_post validate_uuid to_uuid
                       MessageSerializer_run env (Some uid) req pid db))
      = messages db ++ [m]
      /\ sender m = Some (profile_id me)
      /\ recipient m = profile_id target
      /\ subject m = md_subject validated
      /\ body m = md_body validated.
Proof.
  intros env uid req validated pid db target me Hv Ht Hme Hne Hrun.
  unfold CreateMessage_post, bind, read, ret, raise, user_profile,
    MessageSerializer_save.
  rewrite Hv. cbn [negb]. rewrite Ht. cbv beta iota. rewrite Hme.
  cbv beta iota.
  apply String.eqb_neq in Hne. rewrite Hne, Hrun. cbn.
  eexists. repeat split.
Qed.

(** X11: when [CreateMessage.post] answers, the inbox of the profile of
    the URL has one message more and one unread message more, and every
    other profile's inbox has as many messages, and as many unread, as
    before. *)
Theorem CreateMessage_counts :
  forall (env : Env) (request_user : option nat) (req : MessageData)
         (pid : string) (db db' : DB) (r : Response),
    CreateMessage_post validate_uuid to_uuid MessageSerializer_run env
      request_user req pid db
    = (Ok r, db') ->
    forall p : Profile,
      length (inbox p db')
      = (length (inbox p db)
         + if String.eqb (to_uuid pid) (profile_id p) then 1 else 0)%nat
      /\ unread (inbox p db')
         = (unread (inbox p db)
            + if String.eqb (to_uuid pid) (profile_id p) then 1 else 0)%nat.
Proof.
  intros env request_user req pid db db' r H p.
  destruct (CreateMessage_post_cases env request_user req pid db)
    as [(target & from & validated & Hv & Ht & _ & _ & E) | [x E]];
    rewrite E in H; [|discriminate].
  inversion H; subst. clear H.
  apply get_found_in in Ht. destruct Ht as [_ Hid]. apply String.eqb_eq in Hid.
  rewrite !inbox_size, !unread_inbox. cbn [messages set_messages].
  rewrite !count_app. unfold ORM.count at 2 4. cbn. rewrite Hid.
  destruct (String.eqb (to_uuid pid) (profile_id p)); split; reflexivity.
Qed.

End CreatedMessages.

Lemma CreateMessage_sender_is_caller_witness :
  exists m,
    messages (snd (CreateMessage_post example_validate_uuid example_to_uuid
                     example_serializer_run env0 (Some 2%nat)
                     (mkMessageData "hi" "there" None) (profile_id p_ada)
                     db_inbox))
    = messages db_inbox ++ [m]
    /\ sender m = Some (profile_id p_bob)
    /\ recipient m = profile_id p_ada
    /\ subject m
       = md_subject (mkMessageData "hi" "there" (Some (profile_id p_ada)))
    /\ body m = md_body (mkMessageData "hi" "there" (Some (profile_id p_ada))).
Proof.
  apply (CreateMessage_sender_is_caller example_validate_uuid example_to_uuid
           example_serializer_run env0 2%nat (mkMessageData "hi" "there" None)
           (mkMessageData "hi" "there" (Some (profile_id p_ada)))
           (profile_id p_ada) db_inbox p_ada p_bob);
    try reflexivity.
  discriminate.
Defined.

Lemma CreateMessage_counts_witness :
  length (inbox p_ada
            (snd (CreateMessage_post example_validate_uuid example_to_uuid
                    example_serializer_run env0 None
                    (mkMessageData "hi" "there" None)
                    "AAAAAAAA-0000-4000-8000-000000000001" db_inbox)))
  = (length (inbox p_ada db_inbox)
     + if String.eqb (example_to_uuid "AAAAAAAA-0000-4000-8000-000000000001")
                     (profile_id p_ada)
       then 1 else 0)%nat
  /\ unread (inbox p_ada
               (snd (CreateMessage_post example_validate_uuid example_to_uuid
                       example_serializer_run env0 None
                       (mkMessageData "hi" "there" None)
                       "AAAAAAAA-0000-4000-8000-000000000001" db_inbox)))
     = (unread (inbox p_ada db_inbox)
        + if String.eqb
               (example_to_uuid "AAAAAAAA-0000-4000-8000-000000000001")
               (profile_id p_ada)
          then 1 else 0)%nat.
Proof.
  apply (CreateMessage_counts example_validate_uuid example_to_uuid
           example_serializer_run env0 None (mkMessageData "hi" "there" None)
           "AAAAAAAA-0000-4000-8000-000000000001" db_inbox _ _ eq_refl p_ada).
Defined.

(** ** Deleting a message *)

Lemma count_delete {A : Type} (p cond : A -> bool) (l : list A) :
  (ORM.count p (ORM.delete cond l) + ORM.count (fun x => cond x && p x) l
   = ORM.count p l)%nat.
Proof.
  unfold ORM.count, ORM.delete. induction l as [|x l IH]; [reflexivity|].
  simpl. destruct (cond x); simpl; destruct (p x); simpl; lia.
Qed.

Section DeletedMessages.

Variable validate_uuid : string -> bool.
Variable to_uuid : string -> string.

(** What a successful [DeleteMessage.delete] leaves. *)
Lemma DeleteMessage_delete_success (uid : nat) (id : string) (db : DB)
    (me : Profile) (message : Message) :
  validate_uuid id = true ->
  ORM.get (fun p => Nat.eqb (profile_user p) uid) (profiles db) = ORM.Found me ->
  ORM.get (fun m => String.eqb (msg_id m) (to_uuid id)
                    && String.eqb (recipient m) (profile_id me)) (messages db)
  = ORM.Found message ->
  DeleteMessage_delete validate_uuid to_uuid (Some uid) id db
  = (Ok (mkResponse 204 [("message", JStr "Message deleted successfully.")]),
     set_messages
       (ORM.delete (fun m => String.eqb (msg_id m) (to_uuid id)) (messages db))
       db).
Proof.
  intros Hv Hme Hget.
  unfold DeleteMessage_delete, IsAuthenticated, bind, ret, read, write,
    user_profile.
  cbv beta iota. rewrite Hv. cbn [negb]. rewrite Hme. cbv beta iota.
  rewrite Hget. cbv beta iota.
  apply get_found_in in Hget. destruct Hget as [_ Hc].
  apply andb_prop in Hc. destruct Hc as [Hid _]. apply String.eqb_eq in Hid.
  now rewrite Hid.
Qed.

Lemma deleted_gone (id : string) (l : list Message) (m : Message) :
  In m (ORM.delete (fun r => String.eqb (msg_id r) id) l) ->
  In m l /\ msg_id m <> id.
Proof.
  unfold ORM.delete. intros H. apply filter_In in H. destruct H as [Hin Hc].
  split; [assumption|]. apply String.eqb_neq.
  now destruct (String.eqb (msg_id m) id).
Qed.

(** X12: when the message is in the caller's inbox, [DeleteMessage.delete]
    answers 204 and removes it: no stored message has its key any more,
    every message with another key is still there, the caller's inbox is
    one message shorter, and users, codes and profiles are untouched;
    deleting it again raises the 404 "Message not found." and viewing it
    is answered 404, both without writing. *)
Theorem DeleteMessage_removes_message :
  forall (uid : nat) (id : string) (db : DB) (me : Profile) (message : Message),
    validate_uuid id = true ->
    ORM.get (fun p => Nat.eqb (profile_user p) uid) (profiles db)
    = ORM.Found me ->
    ORM.get (fun m => String.eqb (msg_id m) (to_uuid id)
                      && String.eqb (recipient m) (profile_id me)) (messages db)
    = ORM.Found message ->
    exists db',
      DeleteMessage_delete validate_uuid to_uuid (Some uid) id db
      = (Ok (mkResponse 204 [("message", JStr "Message deleted successfully.")]),
         db')
      /\ (forall m, In m (messages db')
                    <-> In m (messages db) /\ msg_id m <> to_uuid id)
      /\ (length (inbox me db') + 1 = length (inbox me db))%nat
      /\ (users db', otps db', profiles db') = (users db, otps db, profiles db)
      /\ DeleteMessage_delete validate_uuid to_uuid (Some uid) id db'
         = (Raise (Http404 "Message not found."), db')
      /\ ViewMessage_get validate_uuid to_uuid (Some uid) id db'
         = (Ok Message_not_found, db').
Proof.
  intros uid id db me message Hv Hme Hget.
  rewrite (DeleteMessage_delete_success uid id db me message Hv Hme Hget).
  eexists. split; [reflexivity|]. cbn [messages set_messages users otps profiles].
  split; [|split; [|split; [reflexivity|split]]].
  - intros m. split; [apply deleted_gone|].
    intros [Hin Hne]. unfold ORM.delete. apply filter_In. split; [assumption|].
    apply String.eqb_neq in Hne. now rewrite Hne.
  - rewrite !inbox_size. cbn [messages set_messages].
    rewrite <- (count_delete
                  (fun m => String.eqb (recipient m) (profile_id me))
                  (fun m => String.eqb (msg_id m) (to_uuid id)) (messages db)).
    f_equal. unfold ORM.count. now rewrite (get_found_inv _ _ _ Hget).
  - unfold DeleteMessage_delete, IsAuthenticated, bind, ret, read, raise,
      user_profile.
    cbv beta iota. rewrite Hv. cbn [negb profiles set_messages]. rewrite Hme.
    cbv beta iota. cbn [messages]. rewrite get_none; [reflexivity|].
    intros m Hm. apply deleted_gone in Hm. destruct Hm as [_ Hne].
    apply String.eqb_neq in Hne. now rewrite Hne.
  - unfold ViewMessage_get, IsAuthenticated, bind, ret, read, raise,
      user_profile.
    cbv beta iota. rewrite Hv. cbn [negb profiles set_messages]. rewrite Hme.
    cbv beta iota. rewrite get_none; [reflexivity|].
    intros m Hm. apply inbox_In in Hm. destruct Hm as [Hm _].
    cbn [messages] in Hm. apply deleted_gone in Hm. destruct Hm as [_ Hne].
    now apply String.eqb_neq.
Qed.

(** X13: a message that is not in the caller's inbox, be it absent or
    addressed to another profile, can be neither read nor deleted by the
    caller: [ViewMessage.get] answers 404 (a response), and
    [DeleteMessage.delete] raises the 404, and neither writes, so the
    message stays unread for its recipient. *)
Theorem message_of_another_profile :
  forall (uid : nat) (id : string) (db : DB) (me : Profile),
    validate_uuid id = true ->
    ORM.get (fun p => Nat.eqb (profile_user p) uid) (profiles db)
    = ORM.Found me ->
    (forall m, In m (messages db) -> msg_id m = to_uuid id ->
               recipient m <> profile_id me) ->
    ViewMessage_get validate_uuid to_uuid (Some uid) id db
    = (Ok Message_not_found, db)
    /\ DeleteMessage_delete validate_uuid to_uuid (Some uid) id db
       = (Raise (Http404 "Message not found."), db).
Proof.
  intros uid id db me Hv Hme Hnot. split.
  - unfold ViewMessage_get, IsAuthenticated, bind, ret, read, raise,
      user_profile.
    cbv beta iota. rewrite Hv. cbn [negb]. rewrite Hme. cbv beta iota.
    rewrite get_none; [reflexivity|].
    intros m Hm. apply inbox_In in Hm. destruct Hm as [Hm Hrec].
    apply String.eqb_neq. intros Hid. now apply (Hnot m Hm Hid).
  - unfold DeleteMessage_delete, IsAuthenticated, bind, ret, read, raise,
      user_profile.
    cbv beta iota. rewrite Hv. cbn [negb]. rewrite Hme. cbv beta iota.
    rewrite get_none; [reflexivity|].
    intros m Hm.
    destruct (String.eqb (msg_id m) (to_uuid id)) eqn:E; [|reflexivity].
    apply String.eqb_eq in E. cbn [andb]. apply String.eqb_neq.
    now apply Hnot.
Qed.

End DeletedMessages.

Lemma DeleteMessage_removes_message_witness :
  exists db',
    DeleteMessage_delete example_validate_uuid example_to_uuid (Some 1%nat)
      (msg_id (letter 3)) db_inbox
    = (Ok (mkResponse 204 [("message", JStr "Message deleted successfully.")]),
       db')
    /\ (forall m, In m (messages db')
                  <-> In m (messages db_inbox)
                      /\ msg_id m <> example_to_uuid (msg_id (letter 3)))
    /\ (length (inbox p_ada db') + 1 = length (inbox p_ada db_inbox))%nat
    /\ (users db', otps db', profiles db')
       = (users db_inbox, otps db_inbox, profiles db_inbox)
    /\ DeleteMessage_delete example_validate_uuid example_to_uuid (Some 1%nat)
         (msg_id (letter 3)) db'
       = (Raise (Http404 "Message not found."), db')
    /\ ViewMessage_get example_validate_uuid example_to_uuid (Some 1%nat)
         (msg_id (letter 3)) db'
       = (Ok Message_not_found, db').
Proof.
  apply (DeleteMessage_removes_message example_validate_uuid example_to_uuid
           1%nat
           (msg_id (letter 3)) db_inbox p_ada (letter 3)); reflexivity.
Defined.

Lemma message_of_another_profile_witness :
  ViewMessage_get example_validate_uuid example_to_uuid (Some 2%nat)
    "CCCCCCCC-0000-4000-8000-00000000000C" db_inbox
  = (Ok Message_not_found, db_inbox)
  /\ DeleteMessage_delete example_validate_uuid example_to_uuid (Some 2%nat)
       "CCCCCCCC-0000-4000-8000-00000000000C" db_inbox
     = (Raise (Http404 "Message not found."), db_inbox).
Proof.
  apply (message_of_another_profile example_validate_uuid example_to_uuid
           2%nat "CCCCCCCC-0000-4000-8000-00000000000C" db_inbox p_bob);
    try reflexivity.
  intros m Hm _. cbn [messages db_inbox] in Hm.
  apply in_map_iff in Hm. destruct Hm as [n [<- _]]. discriminate.
Defined.

(** ** What a view changes *)

Section ViewedMessages.

Variable validate_uuid : string -> bool.
Variable to_uuid : string -> string.

(** X14: in a table whose keys are distinct, [ViewMessage.get] writes at
    most the read flag of the one message with the requested key, and
    only to set it: the messages after the view are the messages before,
    or the same with that one marked read; users, codes, profiles and
    mail are as they were. *)
Theorem ViewMessage_changes_only_read_flag :
  forall (request_user : option nat) (id : string) (db : DB),
    NoDup (map msg_id (messages db)) ->
    (messages (viewed validate_uuid to_uuid request_user id db) = messages db
     \/ messages (viewed validate_uuid to_uuid request_user id db)
        = map (fun r => if String.eqb (msg_id r) (to_uuid id)
                        then mark_read r else r)
              (messages db))
    /\ (users (viewed validate_uuid to_uuid request_user id db),
        otps (viewed validate_uuid to_uuid request_user id db),
        profiles (viewed validate_uuid to_uuid request_user id db),
        outbox (viewed validate_uuid to_uuid request_user id db))
       = (users db, otps db, profiles db, outbox db).
Proof.
  intros request_user id db Hnd.
  destruct (viewed_writes validate_uuid to_uuid request_user id db)
    as [H | (uid & me & message & -> & Hv & Hme & Hget & Hunread)].
  - rewrite H. split; [now left | reflexivity].
  - unfold viewed.
    rewrite (ViewMessage_get_unread validate_uuid to_uuid uid id db me message
               Hv Hme Hget Hunread).
    cbn [snd messages set_messages users otps profiles outbox].
    split; [right | reflexivity].
    apply get_found_in in Hget. destruct Hget as [Hin Hid].
    apply inbox_In in Hin. destruct Hin as [Hin _].
    apply String.eqb_eq in Hid.
    apply map_ext_in. intros r Hr. unfold same_msg. cbn [mark_read msg_id].
    rewrite Hid, (String.eqb_sym (to_uuid id) (msg_id r)).
    destruct (String.eqb (msg_id r) (to_uuid id)) eqn:E; [|reflexivity].
    apply String.eqb_eq in E.
    now rewrite (same_key_same_row msg_id (messages db) message r Hnd Hin Hr)
      by congruence.
Qed.

End ViewedMessages.

Lemma letters_distinct : NoDup (map msg_id (messages db_inbox)).
Proof. repeat constructor; simpl; intuition discriminate. Qed.

Lemma ViewMessage_changes_only_read_flag_witness :
  (messages (viewed example_validate_uuid example_to_uuid (Some 1%nat)
               "CCCCCCCC-0000-4000-8000-00000000000C" db_inbox)
   = messages db_inbox
   \/ messages (viewed example_validate_uuid example_to_uuid (Some 1%nat)
                  "CCCCCCCC-0000-4000-8000-00000000000C" db_inbox)
      = map (fun r => if String.eqb (msg_id r)
                           (example_to_uuid
                              "CCCCCCCC-0000-4000-8000-00000000000C")
                      then mark_read r else r)
            (messages db_inbox))
  /\ (users (viewed example_validate_uuid example_to_uuid (Some 1%nat)
               "CCCCCCCC-0000-4000-8000-00000000000C" db_inbox),
      otps (viewed example_validate_uuid example_to_uuid (Some 1%nat)
              "CCCCCCCC-0000-4000-8000-00000000000C" db_inbox),
      profiles (viewed example_validate_uuid example_to_uuid (Some 1%nat)
                  "CCCCCCCC-0000-4000-8000-00000000000C" db_inbox),
      outbox (viewed example_validate_uuid example_to_uuid (Some 1%nat)
                "CCCCCCCC-0000-4000-8000-00000000000C" db_inbox))
     = (users db_inbox, otps db_inbox, profiles db_inbox, outbox db_inbox).
Proof.
  apply (ViewMessage_changes_only_read_flag example_validate_uuid
           example_to_uuid (Some 1%nat)
           "CCCCCCCC-0000-4000-8000-00000000000C" db_inbox letters_distinct).
Defined.

(** ** What the listings answer *)

(** X15: whenever [InboxGenericView.list] answers, with or without a
    paginator, it has written nothing; every message of [results] is a
    stored message addressed to the caller's profile in which every
    search term occurs (in the subject or the body); and [unread_count]
    is the unread count of the caller's whole inbox, whatever the search
    and the page. *)
Theorem InboxGenericView_list_answer :
  forall (icontains : string -> string -> bool) (page_size : option nat)
         (request_user : option nat) (search : list string) (page_number : nat)
         (db db' : DB) (answer : ListBody),
    InboxGenericView_list icontains page_size request_user search page_number db
    = (Ok answer, db') ->
    db' = db
    /\ exists uid me,
         request_user = Some uid
         /\ ORM.get (fun p => Nat.eqb (profile_user p) uid) (profiles db)
            = ORM.Found me
         /\ lb_unread_count answer
            = ORM.count (fun m => String.eqb (recipient m) (profile_id me)
                                  && negb (is_read m)) (messages db)
         /\ (forall m,
                In m (lb_results answer) ->
                In m (messages db)
                /\ recipient m = profile_id me
                /\ forallb (fun term => icontains (subject m) term
                                        || icontains (body m) term) search
                   = true).
Proof.
  intros icontains page_size request_user search page_number db db' answer.
  unfold InboxGenericView_list, IsAuthenticated, bind, ret, raise, read, check,
    user_profile, get_queryset.
  destruct request_user as [uid|]; [|discriminate]. cbv beta iota.
  destruct (ORM.get _ (profiles db)) as [me| |] eqn:Hme; try discriminate.
  cbv beta iota.
  assert (Hres : forall m,
             In m (filter_queryset icontains search (inbox me db)) ->
             In m (messages db) /\ recipient m = profile_id me
             /\ forallb (fun term => icontains (subject m) term
                                     || icontains (body m) term) search = true).
  { intros m Hm. unfold filter_queryset in Hm. apply filter_In in Hm.
    destruct Hm as [Hm Hs]. apply inbox_In in Hm. tauto. }
  destruct page_size as [size|]; cbv beta iota.
  - destruct (paginate_queryset size _ page_number) as [p|x] eqn:Hp;
      [|discriminate].
    cbv beta iota. intros H; inversion H; subst. split; [reflexivity|].
    exists uid, me. cbn [lb_unread_count lb_results].
    split; [reflexivity|]. split; [exact Hme|]. split; [apply unread_inbox|].
    intros m Hm. apply Hres.
    apply paginate_items in Hp. destruct Hp as [Hitems _].
    rewrite Hitems in Hm. now apply In_firstn, In_skipn in Hm.
  - intros H; inversion H; subst. split; [reflexivity|].
    exists uid, me. cbn [lb_unread_count lb_results].
    split; [reflexivity|]. split; [exact Hme|]. split; [apply unread_inbox|].
    exact Hres.
Qed.

Lemma InboxGenericView_list_answer_witness :
  exists answer db',
    InboxGenericView_list String.eqb (Some 5%nat) (Some 1%nat) ["hello"] 2
      db_inbox
    = (Ok answer, db')
    /\ db' = db_inbox
    /\ exists uid me,
         Some 1%nat = Some uid
         /\ ORM.get (fun p => Nat.eqb (profile_user p) uid) (profiles db_inbox)
            = ORM.Found me
         /\ lb_unread_count answer
            = ORM.count (fun m => String.eqb (recipient m) (profile_id me)
                                  && negb (is_read m)) (messages db_inbox)
         /\ (forall m,
                In m (lb_results answer) ->
                In m (messages db_inbox)
                /\ recipient m = profile_id me
                /\ forallb (fun term => String.eqb (subject m) term
                                        || String.eqb (body m) term) ["hello"]
                   = true).
Proof.
  eexists _, _. split; [reflexivity|].
  apply (InboxGenericView_list_answer String.eqb (Some 5%nat) (Some 1%nat)
           ["hello"] 2 db_inbox _ _ eq_refl).
Defined.

(** X16: whenever [InboxView.get] answers, it has written nothing;
    [count] is the number of stored messages addressed to the caller's
    profile and [unread_count] the number of those that are unread, both
    read off the store alone, so the same for every page; [unread_count]
    is at most [count]; and every message of [results] is addressed to
    the caller's profile. *)
Theorem InboxView_get_counts :
  forall (request_user : option nat) (page_number : nat) (db db' : DB)
         (answer : InboxBody),
    InboxView_get request_user page_number db = (Ok answer, db') ->
    db' = db
    /\ exists uid me,
         request_user = Some uid
         /\ ORM.get (fun p => Nat.eqb (profile_user p) uid) (profiles db)
            = ORM.Found me
         /\ ib_count answer
            = ORM.count (fun m => String.eqb (recipient m) (profile_id me))
                        (messages db)
         /\ ib_unread_count answer
            = ORM.count (fun m => String.eqb (recipient m) (profile_id me)
                                  && negb (is_read m)) (messages db)
         /\ (ib_unread_count answer <= ib_count answer)%nat
         /\ (forall m, In m (ib_results answer) ->
                       In m (messages db) /\ recipient m = profile_id me).
Proof.
  intros request_user page_number db db' answer.
  unfold InboxView_get, IsAuthenticated, bind, ret, raise, read, check,
    user_profile.
  destruct request_user as [uid|]; [|discriminate]. cbv beta iota.
  destruct (ORM.get _ (profiles db)) as [me| |] eqn:Hme; try discriminate.
  cbv beta iota.
  destruct (paginate_queryset 10 (inbox me db) page_number) as [p|x];
    [|discriminate].
  intros H; inversion H; subst. split; [reflexivity|].
  exists uid, me. cbn [ib_count ib_unread_count ib_results].
  split; [reflexivity|]. split; [exact Hme|]. split; [apply inbox_size|].
  split; [apply unread_inbox|]. split.
  - unfold unread, ORM.count. apply filter_length_le.
  - intros m Hm. now apply inbox_In.
Qed.

Lemma InboxView_get_counts_witness :
  exists answer db',
    InboxView_get (Some 1%nat) 2 db_inbox = (Ok answer, db')
    /\ db' = db_inbox
    /\ exists uid me,
         Some 1%nat = Some uid
         /\ ORM.get (fun p => Nat.eqb (profile_user p) uid) (profiles db_inbox)
            = ORM.Found me
         /\ ib_count answer
            = ORM.count (fun m => String.eqb (recipient m) (profile_id me))
                        (messages db_inbox)
         /\ ib_unread_count answer
            = ORM.count (fun m => String.eqb (recipient m) (profile_id me)
                                  && negb (is_read m)) (messages db_inbox)
         /\ (ib_unread_count answer <= ib_count answer)%nat
         /\ (forall m, In m (ib_results answer) ->
                       In m (messages db_inbox) /\ recipient m = profile_id me).
Proof.
  eexists _, _. split; [reflexivity|].
  apply (InboxView_get_counts (Some 1%nat) 2 db_inbox _ _ eq_refl).
Defined.

(** ** Messaging requests that fail write nothing *)

(** X17: the three handlers of messaging that write ([ViewMessage],
    [CreateMessage], [DeleteMessage]) leave the store as it was whenever
    they raise, and the two listings leave it as it was in every case. *)
Theorem messaging_requests_fail_cleanly :
  forall (validate_uuid : string -> bool) (to_uuid : string -> string)
         (MessageSerializer_run :
            DB -> MessageData -> list (string * Json) + MessageData)
         (icontains : string -> string -> bool) (page_size : option nat)
         (env : Env) (request_user : option nat),
    (forall id,
        fails_cleanly (ViewMessage_get validate_uuid to_uuid request_user id))
    /\ (forall req pid,
           fails_cleanly (CreateMessage_post validate_uuid to_uuid
                            MessageSerializer_run env request_user req pid))
    /\ (forall id, fails_cleanly (DeleteMessage_delete validate_uuid to_uuid
                                    request_user id))
    /\ (forall page db, snd (InboxView_get request_user page db) = db)
    /\ (forall search page db,
           snd (InboxGenericView_list icontains page_size request_user search
                  page db) = db).
Proof.
  intros vu tu run icontains page_size env request_user.
  split; [|split; [|split; [|split]]].
  - intros id. apply fails_cleanly_intro. intros db db' x H.
    destruct (viewed_writes vu tu request_user id db)
      as [Hsame | (uid & me & message & -> & Hv & Hme & Hget & Hunread)].
    + unfold viewed in Hsame. rewrite H in Hsame. exact Hsame.
    + rewrite (ViewMessage_get_unread vu tu uid id db me message Hv Hme Hget
                 Hunread) in H.
      discriminate.
  - intros req pid. apply fails_cleanly_intro. intros db db' x H.
    destruct (CreateMessage_post_cases vu tu run env request_user req pid db)
      as [(target & from & validated & _ & _ & _ & _ & E) | [y E]];
      rewrite E in H; [discriminate | now inversion H].
  - intros id. apply fails_cleanly_intro. intros db db' x.
    unfold DeleteMessage_delete, IsAuthenticated, bind, ret, raise, read, write,
      user_profile.
    destruct request_user as [uid|]; [|now intros H; inversion H].
    cbv beta iota.
    destruct (vu id); cbn [negb]; [|now intros H; inversion H].
    destruct (ORM.get _ (profiles db)) as [me| |];
      try (now intros H; inversion H).
    cbv beta iota.
    destruct (ORM.get _ (messages db)) as [message| |];
      now intros H; inversion H.
  - intros page db.
    unfold InboxView_get, IsAuthenticated, bind, ret, raise, read, check,
      user_profile.
    destruct request_user as [uid|]; [|reflexivity]. cbv beta iota.
    destruct (ORM.get _ (profiles db)) as [me| |]; try reflexivity.
    cbv beta iota. now destruct (paginate_queryset 10 (inbox me db) page).
  - intros search page db.
    unfold InboxGenericView_list, IsAuthenticated, bind, ret, raise, read,
      check, user_profile.
    destruct request_user as [uid|]; [|reflexivity]. cbv beta iota.
    destruct (ORM.get _ (profiles db)) as [me| |]; try reflexivity.
    cbv beta iota. destruct page_size as [size|]; [|reflexivity].
    cbv beta iota. now destruct (paginate_queryset size _ page).
Qed.

(** ** Which tables a request writes *)

(** Case analysis on everything a handler branches on. *)
Ltac branches :=
  cbv beta iota;
  repeat (match goal with
          | |- context [match ?x with _ => _ end] =>
              match x with
              | context [match _ with _ => _ end] => fail 1
              | _ => destruct x
              end
          end; cbv beta iota).

Lemma handle_frame (make_password : string -> string)
    (is_valid : Otp -> Z -> bool) (run_validators : string -> list string)
    (env : Env) (req : Request) (db : DB) :
  messages (handle make_password is_valid run_validators env req db)
  = messages db.
Proof.
  destruct req; cbn [handle];
    unfold RegisterView_post, LoginView_post, SendOtpView_post,
      VerifyOtpView_post, PasswordResetRequestView_post,
      PasswordResetConfirmView_post, RegisterSerializer_is_valid,
      RegisterSerializer_create, create_user,
      RequestPasswordResetOtpSerializer_is_valid,
      ResetPasswordWithOtpSerializer_is_valid,
      ResetPasswordWithOtpSerializer_save, SendOtpSerializer_is_valid,
      VerifyOtpSerializer_is_valid,
      IsUnauthenticated, User_get, User_save, delete_otps, SendEmail_send_otp,
      SendEmail_send_password_reset_otp, SendEmail_welcome,
      SendEmail_password_reset_success, bind, ret, raise, read, write, check;
    branches; reflexivity.
Qed.

Section Frames.

Variable make_password : string -> string.
Variable is_valid : Otp -> Z -> bool.
Variable run_validators : string -> list string.
Variable validate_uuid : string -> bool.
Variable to_uuid : string -> string.
Variable MessageSerializer_run :
  DB -> MessageData -> list (string * Json) + MessageData.
Variable icontains : string -> string -> bool.
Variable CustomPagination_page_size : option nat.

(** X18: each application writes its own tables: a request to accounts
    leaves the messages as they were, and a request to messaging leaves
    the users, the codes and the mail as they were. *)
Theorem requests_write_their_own_tables :
  forall (env : Env) (op : Operation) (db : DB),
    match op with
    | AccountsRequest _ =>
        messages (serve make_password is_valid run_validators validate_uuid
                    to_uuid MessageSerializer_run icontains
                    CustomPagination_page_size env op db)
        = messages db
    | _ =>
        users (serve make_password is_valid run_validators validate_uuid
                 to_uuid MessageSerializer_run icontains
                 CustomPagination_page_size env op db)
        = users db
        /\ otps (serve make_password is_valid run_validators validate_uuid
                   to_uuid MessageSerializer_run icontains
                   CustomPagination_page_size env op db)
           = otps db
        /\ outbox (serve make_password is_valid run_validators validate_uuid
                     to_uuid MessageSerializer_run icontains
                     CustomPagination_page_size env op db)
           = outbox db
    end.
Proof.
  intros env op db. destruct op as [req| | | | |]; cbn [serve].
  - apply handle_frame.
  - unfold InboxView_get, IsAuthenticated, user_profile, bind, ret, raise,
      read, write, check.
    branches; repeat split; reflexivity.
  - unfold InboxGenericView_list, IsAuthenticated, user_profile, bind, ret,
      raise, read, write, check.
    branches; repeat split; reflexivity.
  - unfold ViewMessage_get, Message_save, IsAuthenticated, user_profile, bind,
      ret, raise, read, write, check.
    branches; repeat split; reflexivity.
  - unfold CreateMessage_post, MessageSerializer_save, IsAuthenticated,
      user_profile, bind, ret, raise, read, write, check.
    branches; repeat split; reflexivity.
  - unfold DeleteMessage_delete, IsAuthenticated, user_profile, bind, ret,
      raise, read, write, check.
    branches; repeat split; reflexivity.
Qed.

(** X19: after any sequence of requests from the empty store, every code
    in the store belongs to a user in the store. *)
Theorem codes_belong_to_users :
  forall (ops : list (Env * Operation)) (o : Otp),
    In o (otps (run make_password is_valid run_validators validate_uuid to_uuid
                  MessageSerializer_run icontains CustomPagination_page_size
                  ops empty_db)) ->
    exists user,
      In user (users (run make_password is_valid run_validators validate_uuid
                        to_uuid MessageSerializer_run icontains
                        CustomPagination_page_size ops empty_db))
      /\ user_id user = otp_user o.
Proof.
  intros ops o Ho.
  pose proof (run_keeps make_password is_valid run_validators validate_uuid
                to_uuid MessageSerializer_run icontains
                CustomPagination_page_size ops empty_db empty_db_invariant)
    as [_ Hown].
  apply Hown in Ho. apply in_map_iff in Ho. destruct Ho as [user [Hid Hin]].
  eauto.
Qed.

End Frames.

Lemma codes_belong_to_users_witness :
  exists user,
    In user (users (run example_hash example_is_valid example_run_validators
                      example_validate_uuid example_to_uuid
                      example_serializer_run String.eqb None
                      [(env0, AccountsRequest (Register jane))] empty_db))
    /\ user_id user = otp_user (mkOtp 1 123456 1000).
Proof.
  apply (codes_belong_to_users example_hash example_is_valid
           example_run_validators example_validate_uuid example_to_uuid
           example_serializer_run String.eqb None
           [(env0, AccountsRequest (Register jane))] (mkOtp 1 123456 1000)).
  simpl. left. reflexivity.
Defined.

(** ** Asking for a password reset *)

Lemma PasswordResetRequestView_post_ok (env : Env) (request_user : option nat)
    (e : string) (db db' : DB) (r : Response) :
  PasswordResetRequestView_post env request_user e db = (Ok r, db') ->
  request_user = None
  /\ exists user,
       User_by_email (CharField e) db = ORM.Found user
       /\ r = mkResponse 200 [("message", JStr "OTP sent successfully.")]
       /\ db' = mkDB (users db)
                  (ORM.delete (fun o => Nat.eqb (otp_user o) (user_id user))
                              (otps db)
                   ++ [mkOtp (user_id user) (random_otp env) (now env)])
                  (profiles db) (messages db)
                  (outbox db ++ [mkMail "password_reset_otp" (user_id user)]).
Proof.
  unfold PasswordResetRequestView_post, IsUnauthenticated,
    RequestPasswordResetOtpSerializer_is_valid,
    SendOtpSerializer_validate_email, bind, check, User_get.
  destruct request_user; [discriminate|]. cbn.
  destruct (User_by_email (CharField e) db) as [user| |] eqn:Hu; cbn;
    try discriminate.
  rewrite Hu. cbn. intros H; inversion H; subst.
  split; [reflexivity|]. exists user. auto.
Qed.

(** X20: when [PasswordResetRequestView.post] answers, the caller was
    not logged in, the answer is 200, exactly one user has the email, that
    user's codes are replaced by the one new code and one reset mail is
    handed over; the table of users is as it was (asking for a reset
    changes no password and no flag), and so are the other users' codes. *)
Theorem PasswordResetRequest_touches_one_user :
  forall (env : Env) (request_user : option nat) (e : string) (db db' : DB)
         (r : Response),
    PasswordResetRequestView_post env request_user e db = (Ok r, db') ->
    request_user = None
    /\ status r = 200%nat
    /\ exists user,
         User_by_email (CharField e) db = ORM.Found user
         /\ users db' = users db
         /\ otps_of (user_id user) db'
            = [mkOtp (user_id user) (random_otp env) (now env)]
         /\ (forall uid, uid <> user_id user ->
                         otps_of uid db' = otps_of uid db)
         /\ outbox db'
            = outbox db ++ [mkMail "password_reset_otp" (user_id user)].
Proof.
  intros env request_user e db db' r H.
  apply PasswordResetRequestView_post_ok in H.
  destruct H as [Hru (user & Hu & -> & ->)].
  split; [assumption|]. split; [reflexivity|]. exists user.
  split; [assumption|]. cbn [users outbox]. split; [reflexivity|].
  unfold otps_of. cbn [otps]. split; [apply issued_after_delete|].
  split; [|reflexivity].
  intros uid Hne. rewrite filter_app.
  rewrite filter_delete_other by assumption. cbn.
  destruct (Nat.eqb (user_id user) uid) eqn:E; [|apply app_nil_r].
  apply Nat.eqb_eq in E. congruence.
Qed.

Lemma PasswordResetRequest_touches_one_user_witness :
  exists r db',
    PasswordResetRequestView_post env0 None "bob@x.com" db_users = (Ok r, db')
    /\ None = (None : option nat)
    /\ status r = 200%nat
    /\ exists user,
         User_by_email (CharField "bob@x.com") db_users = ORM.Found user
         /\ users db' = users db_users
         /\ otps_of (user_id user) db'
            = [mkOtp (user_id user) (random_otp env0) (now env0)]
         /\ (forall uid, uid <> user_id user ->
                         otps_of uid db' = otps_of uid db_users)
         /\ outbox db'
            = outbox db_users ++ [mkMail "password_reset_otp" (user_id user)].
Proof.
  eexists _, _. split; [reflexivity|].
  apply (PasswordResetRequest_touches_one_user env0 None "bob@x.com" db_users
           _ _ eq_refl).
Defined.

(** ** From registration to login *)

(** What a successful [RegisterView.post] leaves. *)
Lemma RegisterView_post_ok (make_password : string -> string) (env : Env)
    (req : RegisterData) (db db' : DB) (r : Response) :
  RegisterView_post make_password env req db = (Ok r, db') ->
  existsb (fun u => String.eqb (email u) (CharField (reg_email req))) (users db)
  = false
  /\ db' = mkDB (users db
                 ++ [mkUser (fresh_user_id db) (CharField (reg_email req))
                       (CharField (reg_first_name req))
                       (CharField (reg_last_name req))
                       (make_password (CharField (reg_password req))) false])
                (otps db ++ [mkOtp (fresh_user_id db) (random_otp env) (now env)])
                (profiles db) (messages db)
                (outbox db ++ [mkMail "otp" (fresh_user_id db)]).
Proof.
  unfold RegisterView_post, RegisterSerializer_is_valid, bind, check,
    RegisterSerializer_to_internal_value, RegisterSerializer_create.
  cbn [reg_email].
  destruct (existsb _ (users db)) eqn:Hex; [discriminate|].
  set (attrs := mkRegisterData _ _ _ _).
  destruct (RegisterSerializer_validate attrs) as [a|e] eqn:Hv;
    [|destruct e; discriminate].
  assert (a = attrs) as ->.
  { unfold RegisterSerializer_validate in Hv.
    destruct (1 <? _)%nat; [discriminate|].
    destruct (1 <? _)%nat; [discriminate|]. now inversion Hv. }
  cbn. intros H; inversion H; subst. split; reflexivity.
Qed.

Lemma filter_none {A : Type} (p : A -> bool) (l : list A) :
  existsb p l = false -> filter p l = [].
Proof.
  induction l as [|x l IH]; [reflexivity|]. simpl.
  destruct (p x); [discriminate|]. exact IH.
Qed.

Lemma old_users_kept (u : User) (db : DB) :
  user_id u = fresh_user_id db ->
  map (fun r => if Nat.eqb (user_id u) (user_id r) then verified u else r)
      (users db)
  = users db.
Proof.
  intros Hid. rewrite <- (map_id (users db)) at 2. apply map_ext_in.
  intros r Hr. destruct (Nat.eqb (user_id u) (user_id r)) eqn:E; [|reflexivity].
  apply Nat.eqb_eq in E. exfalso. apply (fresh_user_id_new db).
  rewrite <- Hid, E. now apply in_map.
Qed.

(** X21: registration, verification, login: after [RegisterView.post]
    has answered (in a store where every code belongs to a user), a login
    with the registered email is answered 401; [VerifyOtpView.post] with
    the code issued at registration, within its validity window, then
    answers 200 "Email verified successfully."; and after that the same
    login is handed to the token pair view. *)
Theorem Register_VerifyOtp_Login :
  forall (make_password : string -> string) (is_valid : Otp -> Z -> bool)
         (env env' : Env) (req : RegisterData) (db db1 : DB) (r : Response)
         (pw : option string),
    otps_owned db ->
    RegisterView_post make_password env req db = (Ok r, db1) ->
    is_valid (mkOtp (fresh_user_id db) (random_otp env) (now env)) (now env')
    = true ->
    (exists r1, fst (LoginView_post
                       (mkLoginData (Some (CharField (reg_email req))) pw) db1)
                = Ok (Reply r1) /\ status r1 = 401%nat)
    /\ fst (VerifyOtpView_post is_valid env'
              (mkVerifyOtpData (reg_email req) (random_otp env)) db1)
       = Ok (mkResponse 200 [("message", JStr "Email verified successfully.")])
    /\ fst (LoginView_post (mkLoginData (Some (CharField (reg_email req))) pw)
              (snd (VerifyOtpView_post is_valid env'
                      (mkVerifyOtpData (reg_email req) (random_otp env)) db1)))
       = Ok (Super_post (mkLoginData (Some (CharField (reg_email req))) pw)).
Proof.
  intros mp iv env env' req db db1 r pw Hown Hreg Hvalid.
  apply RegisterView_post_ok in Hreg. destruct Hreg as [Hnew ->].
  set (u := mkUser (fresh_user_id db) _ _ _ _ false).
  set (code := mkOtp (fresh_user_id db) (random_otp env) (now env)).
  set (db1 := mkDB _ _ _ _ _).
  assert (Hu : User_by_email (CharField (reg_email req)) db1 = ORM.Found u).
  { unfold User_by_email, ORM.get, db1. cbn [users].
    rewrite filter_app, (filter_none _ _ Hnew). cbn.
    now rewrite String.eqb_refl. }
  assert (Ho : Otp_get u (random_otp env) db1 = ORM.Found code).
  { unfold Otp_get, ORM.get, db1. cbn [otps user_id u].
    rewrite filter_app.
    assert (Hnone : filter (fun o => Nat.eqb (otp_user o) (fresh_user_id db)
                                     && Z.eqb (otp o) (random_otp env))
                           (otps db) = []).
    { apply filter_none. apply Bool.not_true_is_false. intros Hex.
      apply existsb_exists in Hex. destruct Hex as [o [Hin Hc]].
      apply andb_prop in Hc. destruct Hc as [Hid _]. apply Nat.eqb_eq in Hid.
      apply (fresh_user_id_new db). rewrite <- Hid. now apply Hown. }
    rewrite Hnone. cbn. now rewrite Nat.eqb_refl, Z.eqb_refl. }
  split; [|split].
  - unfold LoginView_post. cbn [login_email]. rewrite Hu. cbn.
    eexists. split; reflexivity.
  - now rewrite (VerifyOtpView_post_success iv env'
                   (mkVerifyOtpData (reg_email req) (random_otp env)) db1 u code
                   Hu Ho Hvalid eq_refl).
  - rewrite (VerifyOtpView_post_success iv env'
               (mkVerifyOtpData (reg_email req) (random_otp env)) db1 u code
               Hu Ho Hvalid eq_refl).
    cbn [snd]. unfold LoginView_post, User_by_email, ORM.get.
    cbn [login_email users db1].
    rewrite map_app, (old_users_kept u db eq_refl), filter_app,
      (filter_none _ _ Hnew).
    cbn. now rewrite Nat.eqb_refl, String.eqb_refl.
Qed.

Lemma empty_db_owned : otps_owned empty_db.
Proof. intros o []. Qed.

Lemma Register_VerifyOtp_Login_witness :
  (exists r1, fst (LoginView_post
                     (mkLoginData (Some (CharField (reg_email jane)))
                                  (Some "pw123"))
                     (snd (RegisterView_post example_hash env0 jane empty_db)))
              = Ok (Reply r1) /\ status r1 = 401%nat)
  /\ fst (VerifyOtpView_post example_is_valid (mkEnv 1100 0 "")
            (mkVerifyOtpData (reg_email jane) (random_otp env0))
            (snd (RegisterView_post example_hash env0 jane empty_db)))
     = Ok (mkResponse 200 [("message", JStr "Email verified successfully.")])
  /\ fst (LoginView_post
            (mkLoginData (Some (CharField (reg_email jane))) (Some "pw123"))
            (snd (VerifyOtpView_post example_is_valid (mkEnv 1100 0 "")
                    (mkVerifyOtpData (reg_email jane) (random_otp env0))
                    (snd (RegisterView_post example_hash env0 jane empty_db)))))
     = Ok (Super_post
             (mkLoginData (Some (CharField (reg_email jane))) (Some "pw123"))).
Proof.
  apply (Register_VerifyOtp_Login example_hash example_is_valid env0
           (mkEnv 1100 0 "") jane empty_db _ _ (Some "pw123")
           empty_db_owned eq_refl eq_refl).
Defined.
